(** * The UERANSIM gNB operator charm: reconciliation, radio actions,
      identity publication and the external service

    A shallow embedding of [src/charm.py].  The charm is a set of event
    handlers over the [ops] framework; every handler reads the charm's
    inputs (configuration, relations, leadership, the workload's
    reachability) and acts on a handful of collaborators: the Pebble
    supervisor of the [ueransim] container, the Multus library, the N2 and
    gNB-identity relation libraries and the Kubernetes client.

    - Python values, [int()], truthiness and string helpers are in
      [Module Py].
    - The inputs of a handler are the record [Charm] (Python's [self]);
      what a handler can change is the record [state].
    - Handlers are programs of the monad [M]: state passing with Python
      exceptions.  Every call into a collaborator is appended to the call
      log [calls], in program order, the way a mock records it. *)

From stdpp Require Import base strings gmap list.
From Stdlib Require Import ZArith Ascii String Lia.

Open Scope Z_scope.

(** ** Python builtins used by the charm *)
Module Py.

(** A value of the charm configuration: Juju options are strings, integers
    or booleans (float options are not modelled).  A missing option is
    [None] at the [option pyval] returned by [dict.get]. *)
Inductive pyval :=
| VStr (s : string)
| VInt (z : Z)
| VBool (b : bool).

#[global] Instance pyval_eq_dec : EqDecision pyval.
Proof. solve_decision. Defined.

(** Python exceptions the handlers can meet. *)
Inductive exn :=
| TypeError
| ValueError
| AttributeError
| KeyError.

(** [bool(v)] for a configuration value, [None] included. *)
Definition truthy (v : option pyval) : bool :=
  match v with
  | None => false
  | Some (VStr s) => negb (String.eqb s "")
  | Some (VInt z) => negb (z =? 0)
  | Some (VBool b) => b
  end.

Definition truthy_str (v : option string) : bool :=
  match v with
  | None => false
  | Some s => negb (String.eqb s "")
  end.

Definition truthy_int (v : option Z) : bool :=
  match v with
  | None => false
  | Some z => negb (z =? 0)
  end.

Definition truthy_list {A} (l : list A) : bool :=
  match l with
  | [] => false
  | _ :: _ => true
  end.

(** Whitespace that [int()] skips in an ASCII string: TAB..CR and space
    (C's [isspace]; the separators FS..US are not skipped there). *)
Definition isspace (c : ascii) : bool :=
  let n := Z.of_nat (nat_of_ascii c) in
  ((9 <=? n) && (n <=? 13)) || (n =? 32).

Fixpoint skip_space (l : list ascii) : list ascii :=
  match l with
  | c :: r => if isspace c then skip_space r else l
  | [] => []
  end.

(** Value of a digit character in bases up to 36. *)
Definition digit_value (c : ascii) : option Z :=
  let n := Z.of_nat (nat_of_ascii c) in
  if (48 <=? n) && (n <=? 57) then Some (n - 48)
  else if (97 <=? n) && (n <=? 122) then Some (n - 87)
  else if (65 <=? n) && (n <=? 90) then Some (n - 55)
  else None.

Definition is_underscore (c : ascii) : bool := Ascii.eqb c "_".

(** The digit scan of [int()]: digits of the base with single underscores
    between them.  [prev_us] tells that the previous character was an
    underscore.  Returns the value, the number of digits and the rest of
    the input; [None] is a syntax error (two underscores in a row or a
    trailing one). *)
Fixpoint scan_digits (base : Z) (l : list ascii) (prev_us : bool)
    (ndigits : nat) (acc : Z) : option (Z * nat * list ascii) :=
  match l with
  | [] => if prev_us then None else Some (acc, ndigits, [])
  | c :: r =>
      if is_underscore c then
        if prev_us then None else scan_digits base r true ndigits acc
      else
        match digit_value c with
        | Some d =>
            if d <? base then scan_digits base r false (S ndigits) (acc * base + d)
            else if prev_us then None else Some (acc, ndigits, l)
        | None => if prev_us then None else Some (acc, ndigits, l)
        end
  end.

(** Default of [sys.int_max_str_digits]; it limits bases that are not a
    power of two. *)
Definition int_max_str_digits : nat := 4300.

(** [int(s, base)] on a string, for the two bases the charm uses (10 and
    16): surrounding whitespace, one optional sign, for base 16 an optional
    [0x]/[0X] prefix that one underscore may follow, then the digits.
    [None] is Python's [ValueError].  The model is that of an ASCII
    string, every character below 128: there Python parses the text as it
    stands.  A string with a character outside ASCII is first rewritten by
    Python (Unicode whitespace to a space, Unicode decimal digits to ASCII
    digits); that rewriting is not modelled, such a string is refused
    here. *)
Definition int_of_string (base : Z) (s : string) : option Z :=
  let l := skip_space (list_ascii_of_string s) in
  let '(neg, l) :=
    match l with
    | "+"%char :: r => (false, r)
    | "-"%char :: r => (true, r)
    | _ => (false, l)
    end in
  let l :=
    if base =? 16 then
      match l with
      | "0"%char :: x :: r =>
          if Ascii.eqb x "x" || Ascii.eqb x "X" then
            match r with
            | "_"%char :: r' => r'
            | _ => r
            end
          else l
      | _ => l
      end
    else l in
  match l with
  | "_"%char :: _ => None
  | _ =>
      match scan_digits base l false 0%nat 0 with
      | None => None
      | Some (n, ndigits, rest) =>
          if (ndigits =? 0)%nat then None
          else if (base =? 10) && (int_max_str_digits <? ndigits)%nat then None
          else
            match skip_space rest with
            | [] => Some (if neg then - n else n)
            | _ :: _ => None
            end
      end
  end.

(** [int(v)]: [None] is refused with [TypeError], a string is parsed in
    base 10, an integer is itself, a boolean is 0 or 1. *)
Definition int (v : option pyval) : exn + Z :=
  match v with
  | None => inl TypeError
  | Some (VStr s) =>
      match int_of_string 10 s with
      | Some z => inr z
      | None => inl ValueError
      end
  | Some (VInt z) => inr z
  | Some (VBool b) => inr (if b then 1 else 0)
  end.

(** [int(v, 16)]: with an explicit base only a string is accepted. *)
Definition int_base16 (v : option pyval) : exn + Z :=
  match v with
  | Some (VStr s) =>
      match int_of_string 16 s with
      | Some z => inr z
      | None => inl ValueError
      end
  | _ => inl TypeError
  end.

(** [s.split("/")[0]]: the text before the first slash. *)
Fixpoint before_slash (s : string) : string :=
  match s with
  | EmptyString => EmptyString
  | String c r => if Ascii.eqb c "/" then EmptyString else String c (before_slash r)
  end.

(** [v.split("/")[0]] on a configuration value: only [str] has [split]. *)
Definition split_slash_head (v : option pyval) : exn + string :=
  match v with
  | Some (VStr s) => inr (before_slash s)
  | _ => inl AttributeError
  end.

(** [repr] of a list of strings that hold no quote, backslash or control
    character (the configuration keys): ['a', 'b']. *)
Fixpoint repr_items (l : list string) : string :=
  match l with
  | [] => ""
  | [x] => "'" +:+ x +:+ "'"
  | x :: r => "'" +:+ x +:+ "', " +:+ repr_items r
  end.

Definition repr_list (l : list string) : string := "[" +:+ repr_items l +:+ "]".

End Py.

(** ** Constants of the module *)
Definition BASE_CONFIG_PATH : string := "/etc".
Definition GNB_CONFIG_FILE_NAME : string := "gnb.yaml".
Definition GNB_INTERFACE_NAME : string := "gnb".
Definition GNB_NETWORK_ATTACHMENT_DEFINITION_NAME : string := "gnb-net".
Definition N2_RELATION_NAME : string := "fiveg-n2".
Definition GNB_IDENTITY_RELATION_NAME : string := "fiveg_gnb_identity".
Definition GTP_PORT : Z := 4997.
Definition DEFAULT_FIELD_MANAGER : string := "controller".

(** [f"{BASE_CONFIG_PATH}/{GNB_CONFIG_FILE_NAME}"] *)
Definition config_file_path : string :=
  BASE_CONFIG_PATH +:+ "/" +:+ GNB_CONFIG_FILE_NAME.

(** ** Data of the collaborators *)

(** [ops.model] unit statuses. *)
Inductive StatusBase :=
| UnknownStatus
| MaintenanceStatus (message : string)
| BlockedStatus (message : string)
| WaitingStatus (message : string)
| ActiveStatus.

(** A service entry of a Pebble layer. *)
Record PebbleService := {
  override : string;
  startup : string;
  command : string;
}.

#[global] Instance PebbleService_eq_dec : EqDecision PebbleService.
Proof. solve_decision. Defined.

Record Layer := {
  summary : string;
  description : string;
  services : gmap string PebbleService;
}.

(** [lightkube] models of the external service. *)
Record ObjectMeta := {
  meta_namespace : string;
  meta_name : string;
  meta_labels : list (string * string);
}.

Record ServicePort := {
  port_name : string;
  port : Z;
  protocol : string;
}.

Record ServiceSpec := {
  selector : list (string * string);
  ports : list ServicePort;
  type_ : string;
}.

Record Service := {
  apiVersion : string;
  kind : string;
  metadata : ObjectMeta;
  spec : ServiceSpec;
}.

(** An entry of the workload's file system. *)
Inductive node :=
| Dir
| File (content : string).

(** The keyword arguments of [_render_gnb_config_file].  The configuration
    values go to the template as they are read. *)
Record gnb_params := {
  p_amf_hostname : option string;
  p_amf_port : option Z;
  p_gnb_gtp_address : string;
  p_gnb_link_address : string;
  p_gnb_ngap_address : string;
  p_id_length : option Py.pyval;
  p_mcc : option Py.pyval;
  p_mnc : option Py.pyval;
  p_nci : option Py.pyval;
  p_sd : option Py.pyval;
  p_sst : Z;
  p_tac : option Py.pyval;
}.

(** The values of the dictionary [gnb_nad_config]: what [json.dumps]
    serialises.  A dictionary keeps its keys in insertion order. *)
#[local] Unset Elimination Schemes.
Inductive json :=
| JNull
| JBool (b : bool)
| JInt (z : Z)
| JStr (s : string)
| JList (l : list json)
| JDict (d : list (string * json)).
#[local] Set Elimination Schemes.

(** A configuration value as [json.dumps] sees it. *)
Definition json_of_pyval (v : option Py.pyval) : json :=
  match v with
  | None => JNull
  | Some (Py.VStr s) => JStr s
  | Some (Py.VInt z) => JInt z
  | Some (Py.VBool b) => JBool b
  end.

(** [d[k] = v]: a key of [d] keeps its place, a new key goes to the end. *)
Fixpoint dict_set (d : list (string * json)) (k : string) (v : json)
    : list (string * json) :=
  match d with
  | [] => [(k, v)]
  | (k', v') :: r => if String.eqb k' k then (k, v) :: r else (k', v') :: dict_set r k v
  end.

(** [d.update(u)] *)
Definition dict_update (d u : list (string * json)) : list (string * json) :=
  fold_left (fun d kv => dict_set d (fst kv) (snd kv)) u d.

(** [d.get(k)] *)
Fixpoint dict_get (d : list (string * json)) (k : string) : option json :=
  match d with
  | [] => None
  | (k', v) :: r => if String.eqb k' k then Some v else dict_get r k
  end.

(** A [NetworkAttachmentDefinition]: the name of its metadata and the
    dictionary whose serialisation is [spec["config"]]. *)
Record NetworkAttachmentDefinition := {
  nad_name : string;
  nad_config : list (string * json);
}.

(** A call into a collaborator or into the logger, with its arguments. *)
Inductive call :=
| NadConfigChangedEmit
| RelationsGetItem (relation_name : string)
| RelationsGet (relation_name : string)
| UnitIsLeader
| ContainerCanConnect
| ContainerExists (path : string)
| ContainerPull (path : string)
| ContainerPush (source path : string)
| ContainerGetPlan
| ContainerAddLayer (label : string) (layer : Layer) (combine : bool)
| ContainerStart (service : string)
| ContainerStop (service : string)
| ContainerRestart (service : string)
| MultusIsReady
| N2AmfHostname
| N2AmfPort
| PublishGnbIdentityInformation (relation_id : Z) (gnb_name : string) (tac : Z)
| ClientNew
| ClientApply (obj : Service) (field_manager : string)
| ClientDelete (namespace name : string)
| LoggerInfo (msg : string)
| LoggerError (msg : string).

(** What a handler can raise: a Python builtin exception, Pebble's
    [PathError], the Kubernetes client's [ApiError] with its HTTP status,
    or the error of a collaborator that refuses a call. *)
Inductive error :=
| Builtin (e : Py.exn)
| PathError (path : string)
| ApiError (code : Z)
| CollaboratorError (c : call).

(** ** The charm and its state *)

(** The inputs of a handler: Python's [self] with everything a handler
    reads and cannot change.  [render_template] is the Jinja template
    [gnb-config.yaml.j2]; [fault] tells which collaborator calls answer
    with an error instead of returning. *)
Record Charm := {
  config : gmap string Py.pyval;
  relations : gmap string (list Z);
  is_leader : bool;
  model_name : string;
  app_name : string;
  unit_ip : string;
  can_connect : bool;
  multus_is_ready : bool;
  amf_hostname : option string;
  amf_port : option Z;
  render_template : gnb_params -> string;
  fault : call -> bool;
}.

(** What a handler can change.  [gnb_running] is [_stored.gnb_running];
    [files], [plan_services] and [active_services] are the workload
    container as Pebble holds it; [cluster_services] are the Service
    objects of the cluster by namespace and name; [calls] is the call log,
    oldest first. *)
Record state := {
  unit_status : StatusBase;
  gnb_running : bool;
  files : gmap string node;
  plan_services : gmap string PebbleService;
  active_services : gset string;
  cluster_services : gmap (string * string) Service;
  calls : list call;
}.

Definition set_unit_status (s : StatusBase) (st : state) : state :=
  {| unit_status := s; gnb_running := gnb_running st; files := files st;
     plan_services := plan_services st; active_services := active_services st;
     cluster_services := cluster_services st; calls := calls st |}.

Definition set_gnb_running (b : bool) (st : state) : state :=
  {| unit_status := unit_status st; gnb_running := b; files := files st;
     plan_services := plan_services st; active_services := active_services st;
     cluster_services := cluster_services st; calls := calls st |}.

Definition set_files (f : gmap string node) (st : state) : state :=
  {| unit_status := unit_status st; gnb_running := gnb_running st; files := f;
     plan_services := plan_services st; active_services := active_services st;
     cluster_services := cluster_services st; calls := calls st |}.

Definition set_plan_services (p : gmap string PebbleService) (st : state) : state :=
  {| unit_status := unit_status st; gnb_running := gnb_running st; files := files st;
     plan_services := p; active_services := active_services st;
     cluster_services := cluster_services st; calls := calls st |}.

Definition set_active_services (a : gset string) (st : state) : state :=
  {| unit_status := unit_status st; gnb_running := gnb_running st; files := files st;
     plan_services := plan_services st; active_services := a;
     cluster_services := cluster_services st; calls := calls st |}.

Definition set_cluster_services (c : gmap (string * string) Service) (st : state) : state :=
  {| unit_status := unit_status st; gnb_running := gnb_running st; files := files st;
     plan_services := plan_services st; active_services := active_services st;
     cluster_services := c; calls := calls st |}.

Definition add_call (c : call) (st : state) : state :=
  {| unit_status := unit_status st; gnb_running := gnb_running st; files := files st;
     plan_services := plan_services st; active_services := active_services st;
     cluster_services := cluster_services st; calls := calls st ++ [c] |}.

(** ** The handler monad: state passing with exceptions *)

Inductive outcome (A : Type) :=
| Return (a : A)
| Raised (e : error).
Arguments Return {A} a.
Arguments Raised {A} e.

Definition M (A : Type) : Type := state -> outcome A * state.

#[global] Instance M_ret : MRet M := fun A a st => (Return a, st).

#[global] Instance M_bind : MBind M := fun A B f m st =>
  match m st with
  | (Return a, st') => f a st'
  | (Raised e, st') => (Raised e, st')
  end.

Definition raise {A} (e : error) : M A := fun st => (Raised e, st).

Definition get_state : M state := fun st => (Return st, st).

Definition modify (f : state -> state) : M unit := fun st => (Return tt, f st).

(** The value or exception of a builtin, in the monad. *)
Definition lift {A} (r : Py.exn + A) : M A :=
  match r with
  | inl e => raise (Builtin e)
  | inr a => mret a
  end.

(** [try: m except ValueError: handler] *)
Definition try_except_ValueError {A} (m : M A) (handler : M A) : M A := fun st =>
  match m st with
  | (Raised (Builtin Py.ValueError), st') => handler st'
  | r => r
  end.

(** [for x in l: body(x)] *)
Fixpoint for_each {A} (l : list A) (body : A -> M unit) : M unit :=
  match l with
  | [] => mret tt
  | x :: r => body x ;; for_each r body
  end.

(** The final state and the outcome of running a handler. *)
Definition exec {A} (m : M A) (st : state) : state := snd (m st).
Definition result {A} (m : M A) (st : state) : outcome A := fst (m st).

(** ** Calls into the collaborators *)

(** [logger.info] and [logger.error] only record their message. *)
Definition logger_info (msg : string) : M unit := modify (add_call (LoggerInfo msg)).
Definition logger_error (msg : string) : M unit := modify (add_call (LoggerError msg)).

(** Any other call is recorded, and the collaborator answers it with an
    error when [fault] says so. *)
Definition invoke (self : Charm) (c : call) : M unit :=
  modify (add_call c) ;;
  if fault self c then raise (CollaboratorError c) else mret tt.

(** [self.on.nad_config_changed.emit()]: the Multus library observes the
    event and (re)declares the network attachment definitions. *)
Definition nad_config_changed_emit (self : Charm) : M unit :=
  invoke self NadConfigChangedEmit.

(** [self.model.relations[relation_name]] *)
Definition relations_getitem (self : Charm) (relation_name : string) : M (list Z) :=
  invoke self (RelationsGetItem relation_name) ;;
  match relations self !! relation_name with
  | Some l => mret l
  | None => raise (Builtin Py.KeyError)
  end.

(** [self.model.relations.get(relation_name)] *)
Definition relations_get (self : Charm) (relation_name : string) : M (option (list Z)) :=
  invoke self (RelationsGet relation_name) ;;
  mret (relations self !! relation_name).

(** [self.unit.is_leader()] *)
Definition unit_is_leader (self : Charm) : M bool :=
  invoke self UnitIsLeader ;;
  mret (is_leader self).

(** [self._ueransim_container.can_connect()] *)
Definition container_can_connect (self : Charm) : M bool :=
  invoke self ContainerCanConnect ;;
  mret (can_connect self).

(** [self._ueransim_container.exists(path)] *)
Definition container_exists (self : Charm) (path : string) : M bool :=
  invoke self (ContainerExists path) ;;
  st ← get_state;
  mret (bool_decide (is_Some (files st !! path))).

(** [self._ueransim_container.pull(path).read()]: the content of a file;
    Pebble answers [PathError] for a directory or a missing path. *)
Definition container_pull_read (self : Charm) (path : string) : M string :=
  invoke self (ContainerPull path) ;;
  st ← get_state;
  match files st !! path with
  | Some (File content) => mret content
  | _ => raise (PathError path)
  end.

(** [self._ueransim_container.push(source=..., path=...)] *)
Definition container_push (self : Charm) (source path : string) : M unit :=
  invoke self (ContainerPush source path) ;;
  st ← get_state;
  modify (set_files (<[path := File source]> (files st))).

(** [self._ueransim_container.get_plan()], of which the charm reads
    [services]. *)
Definition container_get_plan (self : Charm) : M (gmap string PebbleService) :=
  invoke self ContainerGetPlan ;;
  st ← get_state;
  mret (plan_services st).

(** [self._ueransim_container.add_layer(label, layer, combine=True)]: the
    services of the layer replace those of the same name in the plan. *)
Definition container_add_layer (self : Charm) (label : string) (layer : Layer)
    (combine : bool) : M unit :=
  invoke self (ContainerAddLayer label layer combine) ;;
  st ← get_state;
  modify (set_plan_services (services layer ∪ plan_services st)).

(** [self._ueransim_container.start(service)] *)
Definition container_start (self : Charm) (service : string) : M unit :=
  invoke self (ContainerStart service) ;;
  st ← get_state;
  modify (set_active_services ({[service]} ∪ active_services st)).

(** [self._ueransim_container.stop(service)] *)
Definition container_stop (self : Charm) (service : string) : M unit :=
  invoke self (ContainerStop service) ;;
  st ← get_state;
  modify (set_active_services (active_services st ∖ {[service]})).

(** [self._ueransim_container.restart(service)] *)
Definition container_restart (self : Charm) (service : string) : M unit :=
  invoke self (ContainerRestart service) ;;
  st ← get_state;
  modify (set_active_services ({[service]} ∪ active_services st)).

(** [self._kubernetes_multus.is_ready()] *)
Definition multus_is_ready_call (self : Charm) : M bool :=
  invoke self MultusIsReady ;;
  mret (multus_is_ready self).

(** [self._n2_requirer.amf_hostname] and [self._n2_requirer.amf_port] *)
Definition n2_amf_hostname (self : Charm) : M (option string) :=
  invoke self N2AmfHostname ;;
  mret (amf_hostname self).

Definition n2_amf_port (self : Charm) : M (option Z) :=
  invoke self N2AmfPort ;;
  mret (amf_port self).

(** [self._gnb_identity_provider.publish_gnb_identity_information(...)] *)
Definition publish_gnb_identity_information (self : Charm) (relation_id : Z)
    (gnb_name : string) (tac : Z) : M unit :=
  invoke self (PublishGnbIdentityInformation relation_id gnb_name tac).

(** [Client()] *)
Definition client_new (self : Charm) : M unit := invoke self ClientNew.

(** [client.apply(obj, field_manager=...)]: a server-side apply creates the
    object or updates the one of that namespace and name. *)
Definition client_apply (self : Charm) (obj : Service) (field_manager : string) : M unit :=
  invoke self (ClientApply obj field_manager) ;;
  st ← get_state;
  modify (set_cluster_services
            (<[(meta_namespace (metadata obj), meta_name (metadata obj)) := obj]>
               (cluster_services st))).

(** [client.delete(Service, namespace=..., name=...)]: the API server
    answers 404 for an object that does not exist, and the client raises it
    as [ApiError]. *)
Definition client_delete (self : Charm) (namespace name : string) : M unit :=
  invoke self (ClientDelete namespace name) ;;
  st ← get_state;
  match cluster_services st !! (namespace, name) with
  | Some _ => modify (set_cluster_services (delete (namespace, name) (cluster_services st)))
  | None => raise (ApiError 404)
  end.

(** [self.unit.status = s] *)
Definition set_status (s : StatusBase) : M unit := modify (set_unit_status s).

(** ** The charm's methods *)

(** The events the charm observes in [__init__]. *)
Inductive EventBase :=
| InstallEvent
| RemoveEvent
| ConfigChangedEvent
| UeransimPebbleReadyEvent
| StartRadioAction
| StopRadioAction
| FivegN2RelationJoinedEvent
| N2InformationAvailableEvent
| FivegGnbIdentityRequestEvent.

Definition _ueransim_container_name : string := "ueransim".
Definition _ueransim_service_name : string := "ueransim".

Definition _get_gnb_address_from_config (self : Charm) : option Py.pyval :=
  config self !! "gnb-address".

Definition _get_gnb_interface_from_config (self : Charm) : option Py.pyval :=
  config self !! "gnb-interface".

Definition _get_id_length_from_config (self : Charm) : option Py.pyval :=
  config self !! "id-length".

Definition _get_mcc_from_config (self : Charm) : option Py.pyval :=
  config self !! "mcc".

Definition _get_mnc_from_config (self : Charm) : option Py.pyval :=
  config self !! "mnc".

Definition _get_nci_from_config (self : Charm) : option Py.pyval :=
  config self !! "nci".

Definition _get_sd_from_config (self : Charm) : option Py.pyval :=
  config self !! "sd".

(** [int(self.model.config.get("sst"))] *)
Definition _get_sst_from_config (self : Charm) : M Z :=
  lift (Py.int (config self !! "sst")).

Definition _get_tac_from_config (self : Charm) : option Py.pyval :=
  config self !! "tac".

Definition _write_config_file (self : Charm) (content : string) : M unit :=
  container_push self content config_file_path ;;
  logger_info ("Config file written " +:+ config_file_path).

Definition _gnb_config_file_is_written (self : Charm) : M bool :=
  e ← container_exists self config_file_path;
  if negb e then mret false else mret true.

(** The template is rendered with the keyword arguments as given. *)
Definition _render_gnb_config_file (self : Charm) (params : gnb_params) : M string :=
  mret (render_template self params).

Definition _config_file_content_matches (self : Charm) (content : string) : M bool :=
  e ← container_exists self config_file_path;
  if negb e then mret false
  else
    existing_content ← container_pull_read self config_file_path;
    if negb (String.eqb existing_content content) then mret false
    else mret true.

(** The list starts empty and grows by one key per failed test, in the
    order of the tests. *)
Definition _get_invalid_configs (self : Charm) : M (list string) :=
  let invalid_configs := [] in
  let invalid_configs :=
    if negb (Py.truthy (_get_gnb_address_from_config self))
    then invalid_configs ++ ["gnb-address"%string] else invalid_configs in
  let invalid_configs :=
    if negb (Py.truthy (_get_id_length_from_config self))
    then invalid_configs ++ ["id-length"%string] else invalid_configs in
  let invalid_configs :=
    if negb (Py.truthy (_get_mcc_from_config self))
    then invalid_configs ++ ["mcc"%string] else invalid_configs in
  let invalid_configs :=
    if negb (Py.truthy (_get_mnc_from_config self))
    then invalid_configs ++ ["mnc"%string] else invalid_configs in
  let invalid_configs :=
    if negb (Py.truthy (_get_nci_from_config self))
    then invalid_configs ++ ["nci"%string] else invalid_configs in
  let invalid_configs :=
    if negb (Py.truthy (_get_sd_from_config self))
    then invalid_configs ++ ["sd"%string] else invalid_configs in
  sst ← _get_sst_from_config self;
  let invalid_configs :=
    if negb (Py.truthy_int (Some sst))
    then invalid_configs ++ ["sst"%string] else invalid_configs in
  let invalid_configs :=
    if negb (Py.truthy (_get_tac_from_config self))
    then invalid_configs ++ ["tac"%string] else invalid_configs in
  mret invalid_configs.

(** [bool(self.model.relations[relation_name])] *)
Definition _relation_created (self : Charm) (relation_name : string) : M bool :=
  l ← relations_getitem self relation_name;
  mret (Py.truthy_list l).

(** [f"{self.model.name}-ueransim-{self.app.name}"] *)
Definition _gnb_name (self : Charm) : string :=
  model_name self +:+ "-ueransim-" +:+ app_name self.

(** [None] when the value is a string that is not a base-16 integer; any
    other exception of [int] is not caught. *)
Definition _get_tac_as_int (self : Charm) : M (option Z) :=
  try_except_ValueError
    (tac ← lift (Py.int_base16 (config self !! "tac"));
     mret (Some tac))
    (logger_error "Invalid TAC value in config: it cannot be converted to integer." ;;
     mret None).

Definition _ueransim_pebble_layer : Layer :=
  {| summary := "ueransim simulator layer";
     description := "pebble config layer for gnb simulator";
     services :=
       {[ _ueransim_service_name :=
            {| override := "replace";
               startup := "enabled";
               command := "nr-gnb -c " +:+ config_file_path |} ]} |}.

Definition _configure_ueransim_workload (self : Charm) (restart : bool) : M unit :=
  plan ← container_get_plan self;
  let layer := _ueransim_pebble_layer in
  if negb (bool_decide (plan = services layer)) || restart then
    container_add_layer self "ueransim" layer true ;;
    st ← get_state;
    if gnb_running st then container_restart self _ueransim_service_name
    else mret tt
  else mret tt.

(** The function the Multus library calls to learn the attachments to
    declare.  The address goes into the dictionary as it is configured;
    the interface selects macvlan when it is set ([is not None]) and a
    bridge otherwise. *)
Definition _network_attachment_definitions_from_config (self : Charm)
    : list NetworkAttachmentDefinition :=
  let gnb_nad_config :=
    [("cniVersion", JStr "0.3.1");
     ("ipam",
      JDict [("type", JStr "static");
             ("addresses",
              JList [JDict [("address",
                             json_of_pyval (_get_gnb_address_from_config self))]])]);
     ("capabilities", JDict [("mac", JBool true)])]%string in
  let gnb_nad_config :=
    match _get_gnb_interface_from_config self with
    | Some gnb_interface =>
        dict_update gnb_nad_config
          [("type", JStr "macvlan"); ("master", json_of_pyval (Some gnb_interface))]%string
    | None =>
        dict_update gnb_nad_config
          [("type", JStr "bridge"); ("bridge", JStr "ran-br")]%string
    end in
  [ {| nad_name := GNB_NETWORK_ATTACHMENT_DEFINITION_NAME;
       nad_config := gnb_nad_config |} ].

Definition _update_fiveg_gnb_identity_relation_data (self : Charm) : M unit :=
  fiveg_gnb_identity_relations ← relations_get self GNB_IDENTITY_RELATION_NAME;
  match fiveg_gnb_identity_relations with
  | None | Some [] =>
      logger_info ("No " +:+ GNB_IDENTITY_RELATION_NAME +:+ " relations found.")
  | Some rels =>
      tac ← _get_tac_as_int self;
      match tac with
      | None | Some 0 =>
          logger_error ("TAC value cannot be published on the "
                        +:+ GNB_IDENTITY_RELATION_NAME +:+ " relation")
      | Some tac =>
          for_each rels (fun gnb_identity_relation =>
            publish_gnb_identity_information self gnb_identity_relation
              (_gnb_name self) tac)
      end
  end.

Definition _configure (self : Charm) (event : EventBase) : M unit :=
  invalid_configs ← _get_invalid_configs self;
  if Py.truthy_list invalid_configs then
    set_status (BlockedStatus
                  ("Configurations are invalid: " +:+ Py.repr_list invalid_configs))
  else
  nad_config_changed_emit self ;;
  created ← _relation_created self N2_RELATION_NAME;
  if negb created then
    set_status (BlockedStatus "Waiting for N2 relation to be created")
  else
  connected ← container_can_connect self;
  if negb connected then
    set_status (WaitingStatus "Waiting for container to be ready")
  else
  storage ← container_exists self BASE_CONFIG_PATH;
  if negb storage then
    set_status (WaitingStatus "Waiting for storage to be attached")
  else
  ready ← multus_is_ready_call self;
  if negb ready then
    set_status (WaitingStatus "Waiting for Multus to be ready")
  else
  hostname ← n2_amf_hostname self;
  no_n2 ← (if negb (Py.truthy_str hostname) then mret true
           else p ← n2_amf_port self; mret (negb (Py.truthy_int p)));
  if (no_n2 : bool) then
    set_status (WaitingStatus "Waiting for N2 information")
  else
  amf_hostname ← n2_amf_hostname self;
  amf_port ← n2_amf_port self;
  gnb_gtp_address ← lift (Py.split_slash_head (_get_gnb_address_from_config self));
  sst ← _get_sst_from_config self;
  content ← _render_gnb_config_file self
    {| p_amf_hostname := amf_hostname;
       p_amf_port := amf_port;
       p_gnb_gtp_address := gnb_gtp_address;
       p_gnb_link_address := unit_ip self;
       p_gnb_ngap_address := unit_ip self;
       p_id_length := _get_id_length_from_config self;
       p_mcc := _get_mcc_from_config self;
       p_mnc := _get_mnc_from_config self;
       p_nci := _get_nci_from_config self;
       p_sd := _get_sd_from_config self;
       p_sst := sst;
       p_tac := _get_tac_from_config self |};
  matches ← _config_file_content_matches self content;
  (if negb matches then
     _write_config_file self content ;;
     _configure_ueransim_workload self true
   else mret tt) ;;
  _update_fiveg_gnb_identity_relation_data self ;;
  set_status ActiveStatus.

Definition _on_install (self : Charm) (event : EventBase) : M unit :=
  client_new self ;;
  client_apply self
    {| apiVersion := "v1";
       kind := "Service";
       metadata :=
         {| meta_namespace := model_name self;
            meta_name := app_name self +:+ "-external";
            meta_labels := [("app.kubernetes.io/name"%string, app_name self)] |};
       spec :=
         {| selector := [("app.kubernetes.io/name"%string, app_name self)];
            ports := [ {| port_name := "gnb-gtp"; port := GTP_PORT; protocol := "UDP" |} ];
            type_ := "LoadBalancer" |} |}
    DEFAULT_FIELD_MANAGER ;;
  logger_info "Created/asserted existence of external gNB service".

Definition _on_remove (self : Charm) (event : EventBase) : M unit :=
  client_new self ;;
  client_delete self (model_name self) (app_name self +:+ "-external") ;;
  logger_info "Removed external gNB service".

Definition _on_start_radio_action (self : Charm) (event : EventBase) : M unit :=
  logger_info "Starting radio service" ;;
  _configure self event ;;
  st ← get_state;
  if negb (gnb_running st) then
    container_start self _ueransim_service_name ;;
    logger_info "Started radio service" ;;
    modify (set_gnb_running true)
  else mret tt.

Definition _on_stop_radio_action (self : Charm) (event : EventBase) : M unit :=
  logger_info "Stopping radio service" ;;
  _configure self event ;;
  st ← get_state;
  if gnb_running st then
    container_stop self _ueransim_service_name ;;
    logger_info "Stopped radio service" ;;
    modify (set_gnb_running false)
  else mret tt.

Definition _on_fiveg_gnb_identity_request (self : Charm) (event : EventBase) : M unit :=
  leader ← unit_is_leader self;
  if negb leader then mret tt
  else _update_fiveg_gnb_identity_relation_data self.

(** The observers registered in [__init__]: the handler of each event. *)
Definition dispatch (self : Charm) (event : EventBase) : M unit :=
  match event with
  | InstallEvent => _on_install self event
  | RemoveEvent => _on_remove self event
  | ConfigChangedEvent => _configure self event
  | UeransimPebbleReadyEvent => _configure self event
  | StartRadioAction => _on_start_radio_action self event
  | StopRadioAction => _on_stop_radio_action self event
  | FivegN2RelationJoinedEvent => _configure self event
  | N2InformationAvailableEvent => _configure self event
  | FivegGnbIdentityRequestEvent => _on_fiveg_gnb_identity_request self event
  end.

(** ** Observations on a run *)

(** The calls a program adds to the log when it runs from [st]. *)
Definition new_calls {A} (m : M A) (st : state) : list call :=
  drop (List.length (calls st)) (calls (exec m st)).

Definition is_push (c : call) : bool :=
  match c with ContainerPush _ _ => true | _ => false end.

Definition is_add_layer (c : call) : bool :=
  match c with ContainerAddLayer _ _ _ => true | _ => false end.

Definition is_start (c : call) : bool :=
  match c with ContainerStart _ => true | _ => false end.

Definition is_stop (c : call) : bool :=
  match c with ContainerStop _ => true | _ => false end.

Definition is_restart (c : call) : bool :=
  match c with ContainerRestart _ => true | _ => false end.

Definition is_publish (c : call) : bool :=
  match c with PublishGnbIdentityInformation _ _ _ => true | _ => false end.

(** A call that changes the workload: a write, a new layer, or a start,
    stop or restart of a service. *)
Definition is_workload_command (c : call) : bool :=
  is_push c || is_add_layer c || is_start c || is_stop c || is_restart c.

(** A call of the status gates of [_configure]. *)
Definition is_gate_query (c : call) : bool :=
  match c with
  | RelationsGetItem _ | ContainerCanConnect | ContainerExists _
  | MultusIsReady | N2AmfHostname | N2AmfPort => true
  | _ => false
  end.

Fixpoint count_calls (p : call -> bool) (l : list call) : nat :=
  match l with
  | [] => 0%nat
  | c :: r => ((if p c then 1 else 0) + count_calls p r)%nat
  end.

(** The eight required settings, in the order [_get_invalid_configs] tests
    them. *)
Definition required_settings : list string :=
  ["gnb-address"; "id-length"; "mcc"; "mnc"; "nci"; "sd"; "sst"; "tac"]%string.

(** A setting is missing or empty: not in the configuration, or the empty
    string. *)
Definition missing_or_empty (self : Charm) (key : string) : bool :=
  match config self !! key with
  | None => true
  | Some (Py.VStr s) => String.eqb s ""
  | Some _ => false
  end.

(** What [_get_invalid_configs] tests of a setting, once [sst] has been
    converted to the integer [sst]: the integer is zero, for the key sst;
    the value is falsy ([None], the empty string, 0 or [False]) for the
    seven others. *)
Definition invalid_setting (self : Charm) (sst : Z) (key : string) : bool :=
  if String.eqb key "sst" then sst =? 0
  else negb (Py.truthy (config self !! key)).

(** The keyword arguments [_configure] renders the template with, when the
    address is a string and [sst] converts to an integer. *)
Definition render_params (self : Charm) : option gnb_params :=
  match Py.split_slash_head (_get_gnb_address_from_config self),
        Py.int (config self !! "sst") with
  | inr gnb_gtp_address, inr sst =>
      Some {| p_amf_hostname := amf_hostname self;
              p_amf_port := amf_port self;
              p_gnb_gtp_address := gnb_gtp_address;
              p_gnb_link_address := unit_ip self;
              p_gnb_ngap_address := unit_ip self;
              p_id_length := _get_id_length_from_config self;
              p_mcc := _get_mcc_from_config self;
              p_mnc := _get_mnc_from_config self;
              p_nci := _get_nci_from_config self;
              p_sd := _get_sd_from_config self;
              p_sst := sst;
              p_tac := _get_tac_from_config self |}
  | _, _ => None
  end.

(** Every gate of [_configure] is open: the configuration is valid, the
    N2 relation exists, the container answers, the storage directory is
    there, Multus is ready and the AMF has given its host name and port. *)
Definition gates_open (self : Charm) (st : state) : Prop :=
  result (_get_invalid_configs self) st = Return []
  ∧ (∃ r rs, relations self !! N2_RELATION_NAME = Some (r :: rs))
  ∧ can_connect self = true
  ∧ is_Some (files st !! BASE_CONFIG_PATH)
  ∧ multus_is_ready self = true
  ∧ Py.truthy_str (amf_hostname self) = true
  ∧ Py.truthy_int (amf_port self) = true.

(** The statuses the gates of [_configure] give, in the order of the
    gates. *)
Definition gate_statuses : list StatusBase :=
  [BlockedStatus "Waiting for N2 relation to be created";
   WaitingStatus "Waiting for container to be ready";
   WaitingStatus "Waiting for storage to be attached";
   WaitingStatus "Waiting for Multus to be ready";
   WaitingStatus "Waiting for N2 information"].

(** The calls of the gates, in the order [_configure] makes them. *)
Definition gate_calls : list call :=
  [NadConfigChangedEmit; RelationsGetItem N2_RELATION_NAME; ContainerCanConnect;
   ContainerExists BASE_CONFIG_PATH; MultusIsReady; N2AmfHostname; N2AmfPort].

(** What leaves a handler as an exception of a collaborator: the call was
    refused, and it is the last call made. *)
Definition refused_call (self : Charm) (e : error) (st' : state) : Prop :=
  ∃ c, e = CollaboratorError c ∧ fault self c = true ∧ last (calls st') = Some c.

(** The state after the publication loop when no call is refused. *)
Definition published (self : Charm) (tac : Z) (rels : list Z) (st : state) : state :=
  fold_left (fun s r => add_call (PublishGnbIdentityInformation r (_gnb_name self) tac) s)
    rels st.

(** The Service object [_on_install] applies. *)
Definition external_service (self : Charm) : Service :=
  {| apiVersion := "v1";
     kind := "Service";
     metadata :=
       {| meta_namespace := model_name self;
          meta_name := app_name self +:+ "-external";
          meta_labels := [("app.kubernetes.io/name"%string, app_name self)] |};
     spec :=
       {| selector := [("app.kubernetes.io/name"%string, app_name self)];
          ports := [ {| port_name := "gnb-gtp"; port := GTP_PORT; protocol := "UDP" |} ];
          type_ := "LoadBalancer" |} |}.

(** ** Sample inputs *)
Module Sample.

(** The configuration of the end-to-end example. *)
Definition sample_config : gmap string Py.pyval :=
  list_to_map
    [("gnb-address", Py.VStr "10.0.0.1/24"); ("id-length", Py.VStr "32");
     ("mcc", Py.VStr "208"); ("mnc", Py.VStr "93"); ("nci", Py.VStr "0x1");
     ("sd", Py.VStr "1"); ("sst", Py.VInt 1); ("tac", Py.VStr "1")]%string.

(** A stand-in for the template: it shows the three addresses and the AMF
    host. *)
Definition sample_template (p : gnb_params) : string :=
  "linkIp: " +:+ p_gnb_link_address p +:+ " ngapIp: " +:+ p_gnb_ngap_address p
  +:+ " gtpIp: " +:+ p_gnb_gtp_address p
  +:+ " amf: " +:+ default "" (p_amf_hostname p).

(** A unit with every gate open: a leader with the N2 relation and one
    identity relation, a reachable workload and the AMF data published. *)
Definition ready_charm (cfg : gmap string Py.pyval) (leader : bool) : Charm :=
  {| config := cfg;
     relations := {[ N2_RELATION_NAME := [0]; GNB_IDENTITY_RELATION_NAME := [7] ]};
     is_leader := leader;
     model_name := "whatever";
     app_name := "gnb";
     unit_ip := "10.1.0.9";
     can_connect := true;
     multus_is_ready := true;
     amf_hostname := Some "amf"%string;
     amf_port := Some 38412;
     render_template := sample_template;
     fault := fun _ => false |}.

(** The same unit before the N2 relation is created. *)
Definition unrelated_charm (cfg : gmap string Py.pyval) : Charm :=
  {| config := cfg;
     relations := {[ N2_RELATION_NAME := [] ]};
     is_leader := true;
     model_name := "whatever";
     app_name := "gnb";
     unit_ip := "10.1.0.9";
     can_connect := true;
     multus_is_ready := true;
     amf_hostname := None;
     amf_port := None;
     render_template := sample_template;
     fault := fun _ => false |}.

(** What [ready_charm sample_config] renders the template with. *)
Definition sample_params : gnb_params :=
  {| p_amf_hostname := Some "amf"%string;
     p_amf_port := Some 38412;
     p_gnb_gtp_address := "10.0.0.1";
     p_gnb_link_address := "10.1.0.9";
     p_gnb_ngap_address := "10.1.0.9";
     p_id_length := Some (Py.VStr "32");
     p_mcc := Some (Py.VStr "208");
     p_mnc := Some (Py.VStr "93");
     p_nci := Some (Py.VStr "0x1");
     p_sd := Some (Py.VStr "1");
     p_sst := 1;
     p_tac := Some (Py.VStr "1") |}.

(** A fresh unit: storage attached, nothing written, the radio off. *)
Definition fresh_state (running : bool) : state :=
  {| unit_status := MaintenanceStatus "";
     gnb_running := running;
     files := {[ BASE_CONFIG_PATH := Dir ]};
     plan_services := ∅;
     active_services := ∅;
     cluster_services := ∅;
     calls := [] |}.

End Sample.

(** ** Relations between the state before and after a run *)

(** A program respects [R] when every run relates the state it starts
    from to the state it ends in, whether it returns or raises. *)
Definition respects (R : relation state) {A} (m : M A) : Prop :=
  ∀ st, R st (exec m st).

(** The persisted flag is the same. *)
Definition keeps_flag : relation state :=
  fun st st' => gnb_running st' = gnb_running st.

(** The log grew by calls that all satisfy [Q]. *)
Definition extends (Q : call -> Prop) : relation state :=
  fun st st' => ∃ new, calls st' = calls st ++ new ∧ Forall Q new.

(** Nothing but the log changed. *)
Definition same_but_calls : relation state :=
  fun st st' =>
    unit_status st' = unit_status st ∧ gnb_running st' = gnb_running st ∧
    files st' = files st ∧ plan_services st' = plan_services st ∧
    active_services st' = active_services st ∧
    cluster_services st' = cluster_services st.

(** The outcome of a program does not depend on the state it starts from. *)
Definition state_blind {A} (m : M A) : Prop := ∀ s s', result m s = result m s'.

(** Nothing of the workload or of the cluster changed. *)
Definition same_workload : relation state :=
  fun st st' =>
    gnb_running st' = gnb_running st ∧
    files st' = files st ∧ plan_services st' = plan_services st ∧
    active_services st' = active_services st ∧
    cluster_services st' = cluster_services st.

Create HintDb collab.
Create HintDb charm.

#[export] Hint Unfold
  logger_info logger_error invoke nad_config_changed_emit relations_getitem
  relations_get unit_is_leader container_can_connect container_exists
  container_pull_read container_push container_get_plan container_add_layer
  container_start container_stop container_restart multus_is_ready_call
  n2_amf_hostname n2_amf_port publish_gnb_identity_information client_new
  client_apply client_delete set_status : collab.

#[export] Hint Unfold
  _get_sst_from_config _write_config_file _gnb_config_file_is_written
  _render_gnb_config_file _config_file_content_matches _get_invalid_configs
  _relation_created _get_tac_as_int _configure_ueransim_workload
  _update_fiveg_gnb_identity_relation_data _configure _on_install _on_remove
  _on_start_radio_action _on_stop_radio_action _on_fiveg_gnb_identity_request
  : charm.

(** * Properties *)

Import Sample.

(** ** The monad *)

Lemma run_bind {A B} (m : M A) (f : A -> M B) st :
  (m ≫= f) st =
  match m st with
  | (Return a, st') => f a st'
  | (Raised e, st') => (Raised e, st')
  end.
Proof. reflexivity. Qed.

Lemma run_pair {A} (m : M A) st : m st = (result m st, exec m st).
Proof. unfold result, exec. now destruct (m st). Qed.

#[export] Instance keeps_flag_preorder : PreOrder keeps_flag.
Proof.
  split; unfold keeps_flag.
  - now intros st.
  - intros a b c Hab Hbc. congruence.
Qed.

#[export] Instance extends_preorder Q : PreOrder (extends Q).
Proof.
  split.
  - intros st. exists []. split; [now rewrite app_nil_r | constructor].
  - intros a b c (n1 & H1 & F1) (n2 & H2 & F2). exists (n1 ++ n2). split.
    + rewrite H2, H1. now rewrite app_assoc.
    + now apply Forall_app.
Qed.

#[export] Instance same_but_calls_preorder : PreOrder same_but_calls.
Proof.
  split; unfold same_but_calls.
  - now intros st.
  - intros a b c Hab Hbc. intuition congruence.
Qed.

#[export] Instance same_workload_preorder : PreOrder same_workload.
Proof.
  split; unfold same_workload.
  - now intros st.
  - intros a b c Hab Hbc. intuition congruence.
Qed.

Section Respects.
Context (R : relation state) `{!PreOrder R}.

Lemma respects_ret {A} (a : A) : respects R (mret a).
Proof. intros st. apply reflexivity. Qed.

Lemma respects_raise {A} e : respects R (@raise A e).
Proof. intros st. apply reflexivity. Qed.

Lemma respects_get : respects R get_state.
Proof. intros st. apply reflexivity. Qed.

Lemma respects_lift {A} (r : Py.exn + A) : respects R (lift r).
Proof. intros st. destruct r; apply reflexivity. Qed.

Lemma respects_modify f : (∀ st, R st (f st)) -> respects R (modify f).
Proof. intros H st. apply H. Qed.

Lemma respects_bind {A B} (m : M A) (f : A -> M B) :
  respects R m -> (∀ a, respects R (f a)) -> respects R (m ≫= f).
Proof.
  intros Hm Hf st. unfold exec. rewrite run_bind.
  specialize (Hm st). unfold exec in Hm.
  destruct (m st) as [[a | e] st']; simpl in *.
  - etransitivity; [exact Hm | apply Hf].
  - exact Hm.
Qed.

Lemma respects_try {A} (m h : M A) :
  respects R m -> respects R h -> respects R (try_except_ValueError m h).
Proof.
  intros Hm Hh st. unfold exec, try_except_ValueError.
  specialize (Hm st). unfold exec in Hm.
  destruct (m st) as [[a | [[]| | |]] st']; simpl in *; try exact Hm.
  etransitivity; [exact Hm | apply Hh].
Qed.

Lemma respects_for_each {A} (l : list A) (body : A -> M unit) :
  (∀ x, respects R (body x)) -> respects R (for_each l body).
Proof.
  intros Hb. induction l as [| x r IH]; simpl.
  - apply respects_ret.
  - apply respects_bind; [apply Hb | intros _; exact IH].
Qed.
End Respects.

(** Decompose a program along its binds and case analyses; [tac] settles
    the state updates. *)
Ltac frame_with tac :=
  autounfold with charm collab;
  repeat lazymatch goal with
    | |- respects _ (mret _) => apply respects_ret; tc_solve
    | |- respects _ (raise _) => apply respects_raise; tc_solve
    | |- respects _ get_state => apply respects_get; tc_solve
    | |- respects _ (lift _) => apply respects_lift; tc_solve
    | |- respects _ (modify _) => apply respects_modify; intro; tac
    | |- respects _ (try_except_ValueError _ _) => apply respects_try; [tc_solve | |]
    | |- respects _ (for_each _ _) => apply respects_for_each; [tc_solve | intro]
    | |- respects _ (mbind _ _) => apply respects_bind; [tc_solve | | intro]
    | |- respects _ (match ?x with _ => _ end) => destruct x
    end.

Ltac extends_tac :=
  first
    [ eexists [_]; split; [reflexivity | repeat constructor; reflexivity]
    | exists []; split; [symmetry; apply app_nil_r | constructor] ].

Ltac unfold_monad :=
  unfold mbind, M_bind, mret, M_ret, modify, raise, get_state, lift,
    try_except_ValueError.

Ltac unfold_monad_in H :=
  unfold mbind, M_bind, mret, M_ret, modify, raise, get_state, lift,
    try_except_ValueError in H.

Ltac fields :=
  cbn [unit_status gnb_running files plan_services active_services
       cluster_services calls set_unit_status set_gnb_running set_files
       set_plan_services set_active_services set_cluster_services add_call
       fst snd exec result negb].

Ltac fields_in H :=
  cbn [unit_status gnb_running files plan_services active_services
       cluster_services calls set_unit_status set_gnb_running set_files
       set_plan_services set_active_services set_cluster_services add_call
       fst snd exec result negb] in H.

(** ** The call log *)

Lemma new_calls_app {A} (m : M A) st new :
  calls (exec m st) = calls st ++ new -> new_calls m st = new.
Proof. intros H. unfold new_calls. rewrite H. apply drop_app_length. Qed.

Lemma extends_new_calls Q {A} (m : M A) st :
  extends Q st (exec m st) ->
  calls (exec m st) = calls st ++ new_calls m st ∧ Forall Q (new_calls m st).
Proof.
  intros (new & H & F). rewrite (new_calls_app m st new H). now split.
Qed.

Lemma count_calls_app p l k :
  count_calls p (l ++ k) = (count_calls p l + count_calls p k)%nat.
Proof. induction l as [| c r IH]; simpl; [reflexivity | rewrite IH; lia]. Qed.

Lemma count_calls_none p l :
  Forall (fun c => p c = false) l -> count_calls p l = 0%nat.
Proof. induction 1 as [| c r Hc _ IH]; simpl; [reflexivity | now rewrite Hc, IH]. Qed.

(** ** What reconciliation leaves alone *)

Ltac extends_ne_tac :=
  first
    [ eexists [_]; split; [reflexivity | repeat constructor; discriminate]
    | exists []; split; [symmetry; apply app_nil_r | constructor] ].

Lemma configure_keeps_flag self event : respects keeps_flag (_configure self event).
Proof. frame_with ltac:(reflexivity). Qed.

Lemma configure_workload_keeps_flag self restart :
  respects keeps_flag (_configure_ueransim_workload self restart).
Proof. frame_with ltac:(reflexivity). Qed.

Lemma write_config_file_keeps_flag self content :
  respects keeps_flag (_write_config_file self content).
Proof. frame_with ltac:(reflexivity). Qed.

Lemma identity_same_but_calls self :
  respects same_but_calls (_update_fiveg_gnb_identity_relation_data self).
Proof. frame_with ltac:(repeat split). Qed.

Lemma identity_request_same_but_calls self event :
  respects same_but_calls (_on_fiveg_gnb_identity_request self event).
Proof. frame_with ltac:(repeat split). Qed.

Lemma install_keeps_flag self event : respects keeps_flag (_on_install self event).
Proof. frame_with ltac:(reflexivity). Qed.

Lemma remove_keeps_flag self event : respects keeps_flag (_on_remove self event).
Proof.  frame_with ltac:(reflexivity). Qed.

(** Reconciliation never calls the supervisor's start or stop. *)
Lemma configure_no_start_stop self event :
  respects (extends (fun c => is_start c = false ∧ is_stop c = false))
    (_configure self event).
Proof. frame_with extends_tac. Qed.

(** The identity step calls neither the workload nor a gate. *)
Lemma identity_no_workload_command self :
  respects (extends (fun c => is_workload_command c = false ∧ is_gate_query c = false))
    (_update_fiveg_gnb_identity_relation_data self).
Proof. frame_with extends_tac. Qed.

(** ** The radio actions *)

(** What [_on_start_radio_action] does, by the outcome of the
    reconciliation it runs first. *)
Lemma start_radio_run self event st :
  let st0 := add_call (LoggerInfo "Starting radio service") st in
  let st1 := exec (_configure self event) st0 in
  _on_start_radio_action self event st =
  match result (_configure self event) st0 with
  | Raised e => (Raised e, st1)
  | Return _ =>
      if gnb_running st then (Return tt, st1)
      else if fault self (ContainerStart _ueransim_service_name)
      then (Raised (CollaboratorError (ContainerStart _ueransim_service_name)),
            add_call (ContainerStart _ueransim_service_name) st1)
      else (Return tt,
            set_gnb_running true
              (add_call (LoggerInfo "Started radio service")
                 (set_active_services ({[_ueransim_service_name]} ∪ active_services st1)
                    (add_call (ContainerStart _ueransim_service_name) st1))))
  end.
Proof.
  intros st0 st1. subst st1.
  pose proof (configure_keeps_flag self event st0) as Hk. unfold keeps_flag in Hk.
  unfold _on_start_radio_action. autounfold with collab. unfold_monad. fields.
  fold st0. unfold exec, result in *.
  destruct (_configure self event st0) as [[[] | e] st1]; cbn [fst snd] in *; [| reflexivity].
  rewrite Hk. subst st0. fields.
  destruct (gnb_running st); cbn [negb]; [reflexivity |].
  destruct (fault self (ContainerStart _ueransim_service_name)); reflexivity.
Qed.

Lemma stop_radio_run self event st :
  let st0 := add_call (LoggerInfo "Stopping radio service") st in
  let st1 := exec (_configure self event) st0 in
  _on_stop_radio_action self event st =
  match result (_configure self event) st0 with
  | Raised e => (Raised e, st1)
  | Return _ =>
      if gnb_running st then
        if fault self (ContainerStop _ueransim_service_name)
        then (Raised (CollaboratorError (ContainerStop _ueransim_service_name)),
              add_call (ContainerStop _ueransim_service_name) st1)
        else (Return tt,
              set_gnb_running false
                (add_call (LoggerInfo "Stopped radio service")
                   (set_active_services (active_services st1 ∖ {[_ueransim_service_name]})
                      (add_call (ContainerStop _ueransim_service_name) st1))))
      else (Return tt, st1)
  end.
Proof.
  intros st0 st1. subst st1.
  pose proof (configure_keeps_flag self event st0) as Hk. unfold keeps_flag in Hk.
  unfold _on_stop_radio_action. autounfold with collab. unfold_monad. fields.
  fold st0. unfold exec, result in *.
  destruct (_configure self event st0) as [[[] | e] st1]; cbn [fst snd] in *; [| reflexivity].
  rewrite Hk. subst st0. fields.
  destruct (gnb_running st); [| reflexivity].
  destruct (fault self (ContainerStop _ueransim_service_name)); reflexivity.
Qed.

(** The calls of a radio action: its first log line, the calls of the
    reconciliation, then the supervisor call and the second log line when
    the flag asks for them. *)
Lemma start_radio_calls self event st :
  let st0 := add_call (LoggerInfo "Starting radio service") st in
  new_calls (_on_start_radio_action self event) st =
  LoggerInfo "Starting radio service" :: new_calls (_configure self event) st0 ++
  match result (_configure self event) st0 with
  | Raised _ => []
  | Return _ =>
      if gnb_running st then []
      else ContainerStart _ueransim_service_name ::
           (if fault self (ContainerStart _ueransim_service_name) then []
            else [LoggerInfo "Started radio service"])
  end.
Proof.
  intros st0. apply new_calls_app. unfold exec at 1. rewrite start_radio_run. fold st0.
  destruct (extends_new_calls _ _ st0 (configure_no_start_stop self event st0)) as [Hc _].
  assert (H0 : calls st0 = calls st ++ [LoggerInfo "Starting radio service"]) by reflexivity.
  rewrite H0 in Hc.
  destruct (result (_configure self event) st0); fields.
  - destruct (gnb_running st); fields.
    + rewrite Hc, app_nil_r. now rewrite <- app_assoc.
    + destruct (fault self _); fields; rewrite Hc; now rewrite <- !app_assoc.
  - rewrite Hc, app_nil_r. now rewrite <- app_assoc.
Qed.

Lemma stop_radio_calls self event st :
  let st0 := add_call (LoggerInfo "Stopping radio service") st in
  new_calls (_on_stop_radio_action self event) st =
  LoggerInfo "Stopping radio service" :: new_calls (_configure self event) st0 ++
  match result (_configure self event) st0 with
  | Raised _ => []
  | Return _ =>
      if gnb_running st then
        ContainerStop _ueransim_service_name ::
        (if fault self (ContainerStop _ueransim_service_name) then []
         else [LoggerInfo "Stopped radio service"])
      else []
  end.
Proof.
  intros st0. apply new_calls_app. unfold exec at 1. rewrite stop_radio_run. fold st0.
  destruct (extends_new_calls _ _ st0 (configure_no_start_stop self event st0)) as [Hc _].
  assert (H0 : calls st0 = calls st ++ [LoggerInfo "Stopping radio service"]) by reflexivity.
  rewrite H0 in Hc.
  destruct (result (_configure self event) st0); fields.
  - destruct (gnb_running st); fields.
    + destruct (fault self _); fields; rewrite Hc; now rewrite <- !app_assoc.
    + rewrite Hc, app_nil_r. now rewrite <- app_assoc.
  - rewrite Hc, app_nil_r. now rewrite <- app_assoc.
Qed.

Lemma configure_start_stop_counts self event st :
  count_calls is_start (new_calls (_configure self event) st) = 0%nat ∧
  count_calls is_stop (new_calls (_configure self event) st) = 0%nat.
Proof.
  destruct (extends_new_calls _ _ st (configure_no_start_stop self event st)) as [_ F].
  split; apply count_calls_none; eapply Forall_impl; try exact F; simpl; tauto.
Qed.


(** C7: the radio actions are idempotent on the persisted flag.  When the
    flag already has the requested value, the action makes no start or stop
    call and leaves the flag as it is.  A start action that returns while
    the flag is false makes exactly one start call and sets the flag; a
    stop action that returns while the flag is true makes exactly one stop
    call and clears it. *)
Theorem radio_actions_idempotent self event st :
  let start := _on_start_radio_action self event in
  let stop := _on_stop_radio_action self event in
  (gnb_running st = true ->
     gnb_running (exec start st) = true ∧
     count_calls is_start (new_calls start st) = 0%nat ∧
     count_calls is_stop (new_calls start st) = 0%nat)
  ∧ (gnb_running st = false ->
     gnb_running (exec stop st) = false ∧
     count_calls is_start (new_calls stop st) = 0%nat ∧
     count_calls is_stop (new_calls stop st) = 0%nat)
  ∧ (gnb_running st = false -> result start st = Return tt ->
     gnb_running (exec start st) = true ∧
     count_calls is_start (new_calls start st) = 1%nat ∧
     count_calls is_stop (new_calls start st) = 0%nat ∧
     In (ContainerStart _ueransim_service_name) (new_calls start st))
  ∧ (gnb_running st = true -> result stop st = Return tt ->
     gnb_running (exec stop st) = false ∧
     count_calls is_stop (new_calls stop st) = 1%nat ∧
     count_calls is_start (new_calls stop st) = 0%nat ∧
     In (ContainerStop _ueransim_service_name) (new_calls stop st)).
Proof.
  intros start stop. subst start stop.
  pose proof (configure_keeps_flag self event
                (add_call (LoggerInfo "Starting radio service") st)) as Hk1.
  pose proof (configure_keeps_flag self event
                (add_call (LoggerInfo "Stopping radio service") st)) as Hk2.
  destruct (configure_start_stop_counts self event
              (add_call (LoggerInfo "Starting radio service") st)) as [Ca1 Co1].
  destruct (configure_start_stop_counts self event
              (add_call (LoggerInfo "Stopping radio service") st)) as [Ca2 Co2].
  unfold keeps_flag in Hk1, Hk2. cbn [gnb_running add_call] in Hk1, Hk2.
  unfold exec, result.
  rewrite !start_radio_calls, !stop_radio_calls, !start_radio_run, !stop_radio_run.
  cbn zeta.
  split; [| split; [| split]].
  - intros Hf. rewrite Hf.
    destruct (result (_configure self event) _); fields;
      cbn [count_calls is_start is_stop]; rewrite ?count_calls_app, ?Ca1, ?Co1, Hk1; auto.
  - intros Hf. rewrite Hf.
    destruct (result (_configure self event) _); fields;
      cbn [count_calls is_start is_stop]; rewrite ?count_calls_app, ?Ca2, ?Co2, Hk2; auto.
  - intros Hf. rewrite Hf.
    destruct (result (_configure self event) _); fields; [| discriminate].
    destruct (fault self _); fields; [discriminate |]. intros _.
    cbn [count_calls is_start is_stop]; rewrite ?count_calls_app, ?Ca1, ?Co1.
    repeat split; try reflexivity.
    right. apply in_or_app. right. now left.
  - intros Hf. rewrite Hf.
    destruct (result (_configure self event) _); fields; [| discriminate].
    destruct (fault self _); fields; [discriminate |]. intros _.
    cbn [count_calls is_start is_stop]; rewrite ?count_calls_app, ?Ca2, ?Co2.
    repeat split; try reflexivity.
    right. apply in_or_app. right. now left.
Qed.


Lemma radio_actions_idempotent_witness :
  (gnb_running (exec (_on_start_radio_action (ready_charm sample_config true)
                        StartRadioAction) (fresh_state true)) = true)
  ∧ (gnb_running (exec (_on_stop_radio_action (ready_charm sample_config true)
                          StopRadioAction) (fresh_state false)) = false)
  ∧ (count_calls is_start
       (new_calls (_on_start_radio_action (ready_charm sample_config true)
                     StartRadioAction) (fresh_state false)) = 1%nat)
  ∧ (count_calls is_stop
       (new_calls (_on_stop_radio_action (ready_charm sample_config true)
                     StopRadioAction) (fresh_state true)) = 1%nat).
Proof.
  pose proof (radio_actions_idempotent (ready_charm sample_config true)
                StartRadioAction (fresh_state true)) as Ht.
  pose proof (radio_actions_idempotent (ready_charm sample_config true)
                StopRadioAction (fresh_state false)) as Hf.
  pose proof (radio_actions_idempotent (ready_charm sample_config true)
                StartRadioAction (fresh_state false)) as Hs.
  pose proof (radio_actions_idempotent (ready_charm sample_config true)
                StopRadioAction (fresh_state true)) as Hp.
  cbv zeta in Ht, Hf, Hs, Hp.
  split; [| split; [| split]].
  - apply (proj1 Ht). reflexivity.
  - apply (proj1 (proj2 Hf)). reflexivity.
  - apply (proj1 (proj2 (proj2 Hs))); [reflexivity | vm_compute; reflexivity].
  - apply (proj2 (proj2 (proj2 Hp))); [reflexivity | vm_compute; reflexivity].
Defined.

(** C8: reconciliation never changes the persisted flag, and neither do
    its helpers nor the install, remove and identity-request handlers; the
    flag is only read there. *)
Theorem configure_never_flips_flag self event st :
  gnb_running (exec (_configure self event) st) = gnb_running st
  ∧ (∀ restart, gnb_running (exec (_configure_ueransim_workload self restart) st)
                = gnb_running st)
  ∧ (∀ content, gnb_running (exec (_write_config_file self content) st)
                = gnb_running st)
  ∧ gnb_running (exec (_update_fiveg_gnb_identity_relation_data self) st)
    = gnb_running st
  ∧ gnb_running (exec (_on_fiveg_gnb_identity_request self event) st)
    = gnb_running st
  ∧ gnb_running (exec (_on_install self event) st) = gnb_running st
  ∧ gnb_running (exec (_on_remove self event) st) = gnb_running st.
Proof.
  repeat split; intros.
  - apply configure_keeps_flag.
  - apply configure_workload_keeps_flag.
  - apply write_config_file_keeps_flag.
  - apply (identity_same_but_calls self st).
  - apply (identity_request_same_but_calls self event st).
  - apply install_keeps_flag.
  - apply remove_keeps_flag.
Qed.

(** C10: a failed gate does not hold a radio action back.  When the
    reconciliation run by the action returns with a Blocked or Waiting
    status and the flag is false, the start action still calls the
    supervisor's start, right after the calls of the reconciliation, and
    sets the flag once the supervisor has answered; the stop action does
    the same with stop when the flag is true. *)
Theorem radio_action_proceeds_after_gate_failure self event :
  (∀ st msg,
     let st0 := exec (logger_info "Starting radio service") st in
     let start := _on_start_radio_action self event in
     result (_configure self event) st0 = Return tt ->
     (unit_status (exec (_configure self event) st0) = BlockedStatus msg
      ∨ unit_status (exec (_configure self event) st0) = WaitingStatus msg) ->
     gnb_running st = false ->
     new_calls start st =
       LoggerInfo "Starting radio service" :: new_calls (_configure self event) st0 ++
       ContainerStart _ueransim_service_name ::
       (if fault self (ContainerStart _ueransim_service_name) then []
        else [LoggerInfo "Started radio service"])
     ∧ (fault self (ContainerStart _ueransim_service_name) = false ->
        result start st = Return tt ∧
        gnb_running (exec start st) = true ∧
        unit_status (exec start st) = unit_status (exec (_configure self event) st0)))
  ∧ (∀ st msg,
     let st0 := exec (logger_info "Stopping radio service") st in
     let stop := _on_stop_radio_action self event in
     result (_configure self event) st0 = Return tt ->
     (unit_status (exec (_configure self event) st0) = BlockedStatus msg
      ∨ unit_status (exec (_configure self event) st0) = WaitingStatus msg) ->
     gnb_running st = true ->
     new_calls stop st =
       LoggerInfo "Stopping radio service" :: new_calls (_configure self event) st0 ++
       ContainerStop _ueransim_service_name ::
       (if fault self (ContainerStop _ueransim_service_name) then []
        else [LoggerInfo "Stopped radio service"])
     ∧ (fault self (ContainerStop _ueransim_service_name) = false ->
        result stop st = Return tt ∧
        gnb_running (exec stop st) = false ∧
        unit_status (exec stop st) = unit_status (exec (_configure self event) st0))).
Proof.
  split; intros st msg st0 act Hr _ Hf; subst act st0.
  - change (exec (logger_info "Starting radio service") st)
      with (add_call (LoggerInfo "Starting radio service") st) in *.
    rewrite start_radio_calls. cbn zeta. rewrite Hr, Hf. split; [reflexivity |].
    intros Hn. unfold exec at 1 2, result at 1.
    rewrite start_radio_run. cbn zeta. rewrite Hr, Hf, Hn. fields. auto.
  - change (exec (logger_info "Stopping radio service") st)
      with (add_call (LoggerInfo "Stopping radio service") st) in *.
    rewrite stop_radio_calls. cbn zeta. rewrite Hr, Hf. split; [reflexivity |].
    intros Hn. unfold exec at 1 2, result at 1.
    rewrite stop_radio_run. cbn zeta. rewrite Hr, Hf, Hn. fields. auto.
Qed.

Lemma radio_action_proceeds_after_gate_failure_witness :
  In (ContainerStart _ueransim_service_name)
     (new_calls (_on_start_radio_action (unrelated_charm sample_config) StartRadioAction)
        (fresh_state false))
  ∧ In (ContainerStop _ueransim_service_name)
       (new_calls (_on_stop_radio_action (unrelated_charm sample_config) StopRadioAction)
          (fresh_state true)).
Proof.
  destruct (radio_action_proceeds_after_gate_failure
              (unrelated_charm sample_config) StartRadioAction) as [Hs _].
  destruct (radio_action_proceeds_after_gate_failure
              (unrelated_charm sample_config) StopRadioAction) as [_ Hp].
  split.
  - destruct (Hs (fresh_state false) "Waiting for N2 relation to be created"%string)
      as [Hc _]; [reflexivity | left; reflexivity | reflexivity |].
    rewrite Hc. right. apply in_or_app. right. now left.
  - destruct (Hp (fresh_state true) "Waiting for N2 relation to be created"%string)
      as [Hc _]; [reflexivity | left; reflexivity | reflexivity |].
    rewrite Hc. right. apply in_or_app. right. now left.
Defined.

(** ** Validation of the configuration *)

Lemma get_sst_run self st :
  _get_sst_from_config self st =
  (match Py.int (config self !! "sst") with
   | inl e => Raised (Builtin e)
   | inr z => Return z
   end, st).
Proof. unfold _get_sst_from_config, lift. now destruct (Py.int _). Qed.

Lemma get_invalid_configs_state self st :
  exec (_get_invalid_configs self) st = st.
Proof.
  unfold exec, _get_invalid_configs. rewrite run_bind, get_sst_run.
  now destruct (Py.int _).
Qed.

Lemma get_invalid_configs_value self st z :
  Py.int (config self !! "sst") = inr z ->
  result (_get_invalid_configs self) st =
  Return (List.filter
            (fun key => if String.eqb key "sst" then z =? 0
                        else negb (Py.truthy (config self !! key)))
            required_settings).
Proof.
  intros Hz. unfold result, _get_invalid_configs. rewrite run_bind, get_sst_run, Hz.
  unfold _get_gnb_address_from_config, _get_id_length_from_config, _get_mcc_from_config,
    _get_mnc_from_config, _get_nci_from_config, _get_sd_from_config, _get_tac_from_config.
  cbv beta iota zeta delta
    [List.filter required_settings String.eqb Ascii.eqb Bool.eqb negb app
     Py.truthy_int mret M_ret fst].
  repeat match goal with
         | |- context [Py.truthy ?v] =>
             destruct (Py.truthy v); cbv beta iota zeta delta [negb app]
         end.
  all: destruct (z =? 0); reflexivity.
Qed.

Lemma get_invalid_configs_sst self st l :
  result (_get_invalid_configs self) st = Return l ->
  ∃ z, Py.int (config self !! "sst") = inr z.
Proof.
  unfold result, _get_invalid_configs. rewrite run_bind, get_sst_run.
  destruct (Py.int _) as [e | z]; [discriminate | eauto].
Qed.

(** With an invalid setting the pass blocks at once: it sets the status and
    touches nothing else, the call log included. *)
Lemma invalid_config_blocks self event st l :
  result (_get_invalid_configs self) st = Return l -> l ≠ [] ->
  _configure self event st =
  (Return tt,
   set_unit_status
     (BlockedStatus ("Configurations are invalid: " +:+ Py.repr_list l)) st).
Proof.
  intros Hr Hl. unfold _configure. rewrite run_bind, (run_pair (_get_invalid_configs self)), Hr.
  rewrite get_invalid_configs_state. destruct l; [congruence | reflexivity].
Qed.

(** When sst is not in the configuration at all, [int(None)] raises
    [TypeError] in [_get_sst_from_config]: the pass sets no status and
    makes no call.  A deployed charm does not see this configuration when
    its sst option has a default. *)
Lemma missing_sst_raises_type_error :
  let self := ready_charm (delete "sst"%string sample_config) true in
  let st := fresh_state false in
  missing_or_empty self "sst" = true
  ∧ result (_configure self ConfigChangedEvent) st = Raised (Builtin Py.TypeError)
  ∧ unit_status (exec (_configure self ConfigChangedEvent) st) = unit_status st
  ∧ new_calls (_configure self ConfigChangedEvent) st = [].
Proof. cbv zeta. repeat split; vm_compute; reflexivity. Qed.

(** [filter] keeps the order of the list it filters. *)
Lemma filter_sublist {A} (f : A -> bool) (l : list A) :
  sublist (List.filter f l) l.
Proof.
  induction l as [| x l IH]; cbn [List.filter].
  - constructor.
  - destruct (f x); now constructor.
Qed.

(** A missing or empty setting is an invalid one, and for a setting whose
    value is a string the two are the same. *)
Lemma missing_or_empty_invalid self z key :
  key ≠ "sst"%string -> missing_or_empty self key = true ->
  invalid_setting self z key = true.
Proof.
  intros Hk Hm. unfold invalid_setting, missing_or_empty in *.
  apply String.eqb_neq in Hk. rewrite Hk.
  destruct (config self !! key) as [[s | i | b] |]; cbn [Py.truthy];
    try discriminate; [now rewrite Hm | reflexivity].
Qed.

Lemma invalid_string_setting self z key :
  key ≠ "sst"%string ->
  (∀ v, config self !! key = Some v -> ∃ s, v = Py.VStr s) ->
  invalid_setting self z key = missing_or_empty self key.
Proof.
  intros Hk Hs. unfold invalid_setting, missing_or_empty.
  apply String.eqb_neq in Hk. rewrite Hk.
  destruct (config self !! key) as [v |]; [| reflexivity].
  destruct (Hs v eq_refl) as [s ->]. cbn [Py.truthy]. now destruct (String.eqb s "").
Qed.

(** C1: for a configuration whose sst converts to an integer and in which
    one of the eight required settings is invalid, the pass returns with
    the status Blocked, message "Configurations are invalid: " followed by
    the list of the invalid settings, and changes nothing else: no call is
    made (no network-attachment declaration, no relation or container
    query, no write) and the files are as before.  The list holds exactly
    the invalid required settings, in the order of [required_settings]
    (the alphabetical one); sst is listed exactly when it is 0; a setting
    whose value is a string is listed exactly when it is missing or
    empty. *)
Theorem invalid_settings_block_pass self event st z key :
  let invalid := List.filter (invalid_setting self z) required_settings in
  Py.int (config self !! "sst") = inr z ->
  In key required_settings ->
  invalid_setting self z key = true ->
  _configure self event st =
    (Return tt,
     set_unit_status
       (BlockedStatus ("Configurations are invalid: " +:+ Py.repr_list invalid)) st)
  ∧ new_calls (_configure self event) st = []
  ∧ files (exec (_configure self event) st) = files st
  ∧ In key invalid
  ∧ (∀ k, In k invalid ↔ In k required_settings ∧ invalid_setting self z k = true)
  ∧ sublist invalid required_settings
  ∧ (In "sst"%string invalid ↔ z = 0)
  ∧ (∀ k, k ≠ "sst"%string ->
       (∀ v, config self !! k = Some v -> ∃ s, v = Py.VStr s) ->
       (In k invalid ↔ In k required_settings ∧ missing_or_empty self k = true)).
Proof.
  intros invalid Hz Hk Hi.
  assert (Hin : In key invalid) by (apply List.filter_In; now split).
  assert (Hrun : _configure self event st =
    (Return tt,
     set_unit_status
       (BlockedStatus ("Configurations are invalid: " +:+ Py.repr_list invalid)) st)).
  { apply invalid_config_blocks.
    - exact (get_invalid_configs_value self st z Hz).
    - intros He. rewrite He in Hin. destruct Hin. }
  split_and!.
  - exact Hrun.
  - unfold new_calls, exec. rewrite Hrun. cbn. apply drop_all.
  - unfold exec. now rewrite Hrun.
  - exact Hin.
  - intros k. apply List.filter_In.
  - apply filter_sublist.
  - unfold invalid. rewrite List.filter_In. unfold invalid_setting at 1.
    cbn [String.eqb]. rewrite ?Ascii.eqb_refl. rewrite Z.eqb_eq.
    split; [tauto |]. intros ->. split; [| reflexivity].
    unfold required_settings. cbn [In]. tauto.
  - intros k Hne Hs. unfold invalid. rewrite List.filter_In.
    now rewrite (invalid_string_setting self z k Hne Hs).
Qed.

Lemma invalid_settings_block_pass_witness :
  let self := ready_charm (<["tac" := Py.VStr ""]> sample_config) true in
  let st := fresh_state false in
  missing_or_empty self "tac" = true
  ∧ _configure self ConfigChangedEvent st =
      (Return tt,
       set_unit_status (BlockedStatus "Configurations are invalid: ['tac']") st)
  ∧ new_calls (_configure self ConfigChangedEvent) st = [].
Proof.
  intros self st.
  destruct (invalid_settings_block_pass self ConfigChangedEvent st 1 "tac")
    as (Hrun & Hcalls & _); [reflexivity | vm_compute; tauto | reflexivity |].
  split_and!; [reflexivity | exact Hrun | exact Hcalls].
Defined.

Lemma emit_run self st :
  nad_config_changed_emit self st =
  (if fault self NadConfigChangedEmit
   then Raised (CollaboratorError NadConfigChangedEmit) else Return tt,
   add_call NadConfigChangedEmit st).
Proof.
  unfold nad_config_changed_emit, invoke. unfold_monad.
  now destruct (fault self NadConfigChangedEmit).
Qed.

(** C4: when the validation of the configuration succeeds, the first call
    of the pass is the emission of [nad_config_changed], which declares the
    network attachment, and it is emitted once; every gate is evaluated
    after it, whatever status the pass ends with. *)
Theorem nad_declared_before_gates self event st :
  result (_get_invalid_configs self) st = Return [] ->
  ∃ rest,
    new_calls (_configure self event) st = NadConfigChangedEmit :: rest
    ∧ Forall (fun c => c ≠ NadConfigChangedEmit) rest.
Proof.
  intros Hr. unfold new_calls, exec, _configure.
  rewrite run_bind, (run_pair (_get_invalid_configs self)), Hr, get_invalid_configs_state.
  cbn [Py.truthy_list]. rewrite run_bind, emit_run.
  destruct (fault self NadConfigChangedEmit).
  - exists []. split; [| constructor]. fields. apply drop_app_length.
  - match goal with
    | |- context [snd (?m (add_call NadConfigChangedEmit st))] =>
        assert (HK : respects (extends (fun c => c ≠ NadConfigChangedEmit)) m)
          by frame_with extends_ne_tac;
        destruct (HK (add_call NadConfigChangedEmit st)) as (rest & Hc & F)
    end.
    exists rest. split; [| exact F].
    unfold exec in Hc. rewrite Hc. fields. rewrite <- app_assoc. apply drop_app_length.
Qed.

Lemma nad_declared_before_gates_witness :
  ∃ rest,
    new_calls (_configure (unrelated_charm sample_config) ConfigChangedEvent)
      (fresh_state false) = NadConfigChangedEmit :: rest
    ∧ unit_status (exec (_configure (unrelated_charm sample_config) ConfigChangedEvent)
                     (fresh_state false))
      = BlockedStatus "Waiting for N2 relation to be created".
Proof.
  destruct (nad_declared_before_gates (unrelated_charm sample_config) ConfigChangedEvent
              (fresh_state false)) as (rest & Hc & _); [reflexivity |].
  exists rest. split; [exact Hc | reflexivity].
Defined.

(** ** Identity publication and leadership *)

(** On a unit that is not the leader, the identity-request handler asks for
    leadership and stops there. *)
Lemma identity_request_non_leader self event st :
  is_leader self = false ->
  new_calls (_on_fiveg_gnb_identity_request self event) st = [UnitIsLeader].
Proof.
  intros Hl. apply new_calls_app.
  unfold exec, _on_fiveg_gnb_identity_request, unit_is_leader, invoke.
  unfold_monad. fields. rewrite Hl.
  destruct (fault self UnitIsLeader); reflexivity.
Qed.

(** Reconciliation never asks whether the unit is the leader. *)
Lemma configure_never_asks_leader self event :
  respects (extends (fun c => c ≠ UnitIsLeader)) (_configure self event).
Proof. frame_with extends_ne_tac. Qed.

(** C2: on a unit that is not the leader, with a valid configuration,
    every gate open and one identity relation, the pass ends Active and
    calls [publish_gnb_identity_information]; only the identity-request
    handler checks leadership. *)
Theorem non_leader_publishes_on_reconcile :
  let self := ready_charm sample_config false in
  let st := fresh_state false in
  is_leader self = false
  ∧ result (_configure self ConfigChangedEvent) st = Return tt
  ∧ unit_status (exec (_configure self ConfigChangedEvent) st) = ActiveStatus
  ∧ In (PublishGnbIdentityInformation 7 "whatever-ueransim-gnb" 1)
       (new_calls (_configure self ConfigChangedEvent) st)
  ∧ count_calls is_publish
      (new_calls (_on_fiveg_gnb_identity_request self FivegGnbIdentityRequestEvent) st)
    = 0%nat.
Proof.
  cbv zeta. repeat split; try (vm_compute; reflexivity).
  vm_compute. repeat (first [left; reflexivity | right]).
Qed.

(** ** The external service *)

Lemma install_run self event st :
  fault self ClientNew = false ->
  let svc := external_service self in
  _on_install self event st =
  if fault self (ClientApply svc DEFAULT_FIELD_MANAGER)
  then (Raised (CollaboratorError (ClientApply svc DEFAULT_FIELD_MANAGER)),
        add_call (ClientApply svc DEFAULT_FIELD_MANAGER) (add_call ClientNew st))
  else (Return tt,
        add_call (LoggerInfo "Created/asserted existence of external gNB service")
          (set_cluster_services
             (<[(model_name self, app_name self +:+ "-external") := svc]>
                (cluster_services st))
             (add_call (ClientApply svc DEFAULT_FIELD_MANAGER) (add_call ClientNew st)))).
Proof.
  intros Hn svc. subst svc.
  unfold _on_install, client_new, client_apply, logger_info, invoke. unfold_monad. fields.
  rewrite Hn. fields. fold (external_service self).
  destruct (fault self (ClientApply _ _)); reflexivity.
Qed.

Lemma remove_run self event st :
  fault self ClientNew = false ->
  let key := (model_name self, app_name self +:+ "-external") in
  let c := ClientDelete (model_name self) (app_name self +:+ "-external") in
  _on_remove self event st =
  if fault self c then (Raised (CollaboratorError c), add_call c (add_call ClientNew st))
  else match cluster_services st !! key with
       | Some _ =>
           (Return tt,
            add_call (LoggerInfo "Removed external gNB service")
              (set_cluster_services (delete key (cluster_services st))
                 (add_call c (add_call ClientNew st))))
       | None => (Raised (ApiError 404), add_call c (add_call ClientNew st))
       end.
Proof.
  intros Hn key c. subst key c.
  unfold _on_remove, client_new, client_delete, logger_info, invoke. unfold_monad. fields.
  rewrite Hn. fields.
  destruct (fault self (ClientDelete _ _)); [reflexivity |]. fields.
  destruct (cluster_services st !! _); reflexivity.
Qed.

(** C9 (as amended): the install handler applies the [<app>-external]
    LoadBalancer service with its single UDP port and succeeds whether or
    not the record exists, and a second install changes nothing more; the
    remove handler deletes the record of that name and succeeds when the
    record exists; when the record is already absent the client's
    not-found error leaves the handler, which does not catch it. *)
Theorem external_service_install_and_remove self event st :
  let key := (model_name self, app_name self +:+ "-external") in
  let svc := external_service self in
  let install := _on_install self event in
  let remove := _on_remove self event in
  fault self ClientNew = false ->
  (meta_name (metadata svc) = app_name self +:+ "-external"
   ∧ ports (spec svc) = [ {| port_name := "gnb-gtp"; port := 4997; protocol := "UDP" |} ]
   ∧ type_ (spec svc) = "LoadBalancer"%string)
  ∧ (fault self (ClientApply svc DEFAULT_FIELD_MANAGER) = false ->
     result install st = Return tt
     ∧ cluster_services (exec install st) = <[key := svc]> (cluster_services st)
     ∧ cluster_services (exec install (exec install st)) = cluster_services (exec install st)
     ∧ new_calls install st =
       [ClientNew; ClientApply svc DEFAULT_FIELD_MANAGER;
        LoggerInfo "Created/asserted existence of external gNB service"])
  ∧ (fault self (ClientDelete (model_name self) (app_name self +:+ "-external")) = false ->
     (is_Some (cluster_services st !! key) ->
        result remove st = Return tt
        ∧ cluster_services (exec remove st) = delete key (cluster_services st)
        ∧ new_calls remove st =
          [ClientNew; ClientDelete (model_name self) (app_name self +:+ "-external");
           LoggerInfo "Removed external gNB service"])
     ∧ (cluster_services st !! key = None ->
        result remove st = Raised (ApiError 404)
        ∧ cluster_services (exec remove st) = cluster_services st
        ∧ new_calls remove st =
          [ClientNew; ClientDelete (model_name self) (app_name self +:+ "-external")])).
Proof.
  intros key svc install remove Hn. subst install remove.
  split; [repeat split | split].
  - intros Ha.
    pose proof (install_run self event st Hn) as Hrun.
    pose proof (install_run self event (exec (_on_install self event) st) Hn) as Hrun'.
    cbn zeta in Hrun, Hrun'. fold svc in Hrun, Hrun'. rewrite Ha in Hrun, Hrun'.
    unfold result, new_calls, exec in *. rewrite Hrun' , Hrun. fields.
    fold key. split_and!; try reflexivity.
    + apply insert_insert_eq.
    + rewrite <- !app_assoc. apply drop_app_length.
  - intros Hd. pose proof (remove_run self event st Hn) as Hrun. cbn zeta in Hrun.
    rewrite Hd in Hrun. fold key in Hrun. split.
    + intros [svc' Hs]. rewrite Hs in Hrun. unfold result, exec, new_calls, exec.
      rewrite Hrun. fields. split_and!; try reflexivity.
      rewrite <- !app_assoc. apply drop_app_length.
    + intros Hs. rewrite Hs in Hrun. unfold result, exec, new_calls, exec.
      rewrite Hrun. fields. split_and!; try reflexivity.
      rewrite <- !app_assoc. apply drop_app_length.
Qed.

Lemma external_service_install_and_remove_witness :
  result (_on_install (unrelated_charm sample_config) InstallEvent) (fresh_state false)
  = Return tt
  ∧ result (_on_remove (unrelated_charm sample_config) RemoveEvent)
      (exec (_on_install (unrelated_charm sample_config) InstallEvent) (fresh_state false))
    = Return tt.
Proof.
  split.
  - apply (external_service_install_and_remove (unrelated_charm sample_config)
             InstallEvent (fresh_state false)); reflexivity.
  - apply (external_service_install_and_remove (unrelated_charm sample_config)
             RemoveEvent
             (exec (_on_install (unrelated_charm sample_config) InstallEvent)
                (fresh_state false)));
      [reflexivity | reflexivity | vm_compute; eauto].
Defined.

(** C9 as stated fails: on a cluster without the record, removal raises the
    client's not-found error. *)
Lemma remove_fails_when_service_absent :
  cluster_services (fresh_state false) !! ("whatever"%string, "gnb-external"%string) = None
  ∧ result (_on_remove (unrelated_charm sample_config) RemoveEvent) (fresh_state false)
    = Raised (ApiError 404).
Proof. split; vm_compute; reflexivity. Qed.

(** ** Running a reconciliation pass step by step *)

Lemma get_invalid_configs_run self st :
  _get_invalid_configs self st =
  (match Py.int (config self !! "sst") with
   | inl e => Raised (Builtin e)
   | inr z =>
       Return (List.filter
                 (fun key => if String.eqb key "sst" then z =? 0
                             else negb (Py.truthy (config self !! key)))
                 required_settings)
   end, st).
Proof.
  rewrite (run_pair (_get_invalid_configs self)), get_invalid_configs_state. f_equal.
  destruct (Py.int (config self !! "sst")) as [e | z] eqn:Hz.
  - unfold result, _get_invalid_configs. now rewrite run_bind, get_sst_run, Hz.
  - now apply get_invalid_configs_value.
Qed.

Ltac run_in H :=
  unfold _configure, _relation_created, _render_gnb_config_file, _get_sst_from_config,
    _config_file_content_matches, _write_config_file, _configure_ueransim_workload in H;
  autounfold with collab in H;
  unfold lift, try_except_ValueError in H;
  unfold_monad_in H;
  rewrite ?get_invalid_configs_run in H;
  fields_in H.

Ltac step_in H :=
  try match type of H with
      | context [List.filter ?f required_settings] =>
          first
            [ match goal with
              | Hi : _ = List.filter f required_settings |- _ => rewrite <- Hi in H
              end
            | let Hi := fresh "Hinvalid" in
              remember (List.filter f required_settings) as invalid_configs eqn:Hi in H ]
      end;
  match type of H with
  | context [match ?x with _ => _ end] =>
      lazymatch x with
      | context [match _ with _ => _ end] => fail
      | negb ?y => destruct y eqn:?
      | _update_fiveg_gnb_identity_relation_data ?self ?s =>
          let I1 := fresh "Isame" in
          let I2 := fresh "Icalls" in
          pose proof (identity_same_but_calls self s) as I1;
          pose proof (identity_no_workload_command self s) as I2;
          unfold exec in I1, I2;
          destruct x as [[[] | ?] ?] eqn:?;
          cbn [fst snd] in I1, I2
      | _ => destruct x eqn:?
      end
  end; fields_in H; rewrite ?orb_true_r in H; try discriminate H.



Lemma render_params_eq self s z params :
  Py.split_slash_head (_get_gnb_address_from_config self) = inr s ->
  Py.int (config self !! "sst") = inr z ->
  render_params self = Some params ->
  params =
  {| p_amf_hostname := amf_hostname self;
     p_amf_port := amf_port self;
     p_gnb_gtp_address := s;
     p_gnb_link_address := unit_ip self;
     p_gnb_ngap_address := unit_ip self;
     p_id_length := _get_id_length_from_config self;
     p_mcc := _get_mcc_from_config self;
     p_mnc := _get_mnc_from_config self;
     p_nci := _get_nci_from_config self;
     p_sd := _get_sd_from_config self;
     p_sst := z;
     p_tac := _get_tac_from_config self |}.
Proof. intros Hs Hz. unfold render_params. rewrite Hs, Hz. congruence. Qed.

(** ** Writing the artifact *)

(** C5: a pass that ends Active while the stored artifact differs from the
    rendered content (or is absent) writes the content to [/etc/gnb.yaml],
    installs the layer with [combine] and restarts the service exactly
    when the persisted flag is true; with the flag false no restart is
    called and the running services are left as they are. *)
Theorem differing_content_is_written self event st params :
  let st' := exec (_configure self event) st in
  let content := render_template self params in
  result (_configure self event) st = Return tt ->
  unit_status st' = ActiveStatus ->
  render_params self = Some params ->
  files st !! config_file_path ≠ Some (File content) ->
  (∃ post,
     new_calls (_configure self event) st =
       [NadConfigChangedEmit; RelationsGetItem N2_RELATION_NAME; ContainerCanConnect;
        ContainerExists BASE_CONFIG_PATH; MultusIsReady; N2AmfHostname; N2AmfPort;
        N2AmfHostname; N2AmfPort; ContainerExists config_file_path]
       ++ (if bool_decide (is_Some (files st !! config_file_path))
           then [ContainerPull config_file_path] else [])
       ++ [ContainerPush content config_file_path;
           LoggerInfo "Config file written /etc/gnb.yaml";
           ContainerGetPlan;
           ContainerAddLayer "ueransim" _ueransim_pebble_layer true]
       ++ (if gnb_running st then [ContainerRestart _ueransim_service_name] else [])
       ++ post
     ∧ Forall (fun c => is_workload_command c = false ∧ is_gate_query c = false) post)
  ∧ files st' !! config_file_path = Some (File content)
  ∧ plan_services st' !! _ueransim_service_name =
    Some {| override := "replace"; startup := "enabled";
            command := "nr-gnb -c /etc/gnb.yaml" |}
  ∧ active_services st' =
    (if gnb_running st then {[_ueransim_service_name]} ∪ active_services st
     else active_services st).
Proof.
  intros st' content Hr Hs Hp Hd. subst st' content.
  unfold new_calls, result, exec in *.
  destruct (_configure self event st) as [r st'] eqn:H. cbn [fst snd] in *. subst r.
  run_in H.
  repeat step_in H.
  all: injection H as <-; fields_in Hs; try discriminate Hs.
  all: match goal with
       | Ha : Py.split_slash_head _ = inr _, Hz : Py.int _ = inr _ |- _ =>
           pose proof (render_params_eq _ _ _ _ Ha Hz Hp) as ->
       end.
  all: try match goal with
       | He : String.eqb _ _ = true |- _ => apply String.eqb_eq in He; subst; congruence
       end.
  all: destruct Isame as (_ & _ & If & Ip & Ia & _); destruct Icalls as (post & Ic & IF).
  all: fields_in If; fields_in Ip; fields_in Ia; fields_in Ic; fields.
  all: rewrite If, Ip, Ia, Ic.
  all: split; [exists post; split; [| exact IF] | split_and!].
  all: try (rewrite <- !app_assoc, drop_app_length; cbn [app]; reflexivity).
  all: try apply lookup_insert_eq.
  all: try reflexivity.
  all: apply lookup_union_Some_l; reflexivity.
Qed.

Lemma differing_content_is_written_witness :
  files (exec (_configure (ready_charm sample_config true) ConfigChangedEvent)
           (fresh_state true))
  !! config_file_path = Some (File (sample_template sample_params)).
Proof.
  apply (differing_content_is_written (ready_charm sample_config true)
           ConfigChangedEvent (fresh_state true) sample_params).
  - vm_compute. reflexivity.
  - vm_compute. reflexivity.
  - vm_compute. reflexivity.
  - vm_compute. discriminate.
Defined.

(** ** A tracking-area code that is not hexadecimal *)

Lemma identity_nonhex_run self st s :
  config self !! "tac" = Some (Py.VStr s) ->
  Py.int_of_string 16 s = None ->
  fault self (RelationsGet GNB_IDENTITY_RELATION_NAME) = false ->
  _update_fiveg_gnb_identity_relation_data self st =
  (Return tt,
   match relations self !! GNB_IDENTITY_RELATION_NAME with
   | None | Some [] =>
       add_call (LoggerInfo "No fiveg_gnb_identity relations found.")
         (add_call (RelationsGet GNB_IDENTITY_RELATION_NAME) st)
   | Some (_ :: _) =>
       add_call (LoggerError "TAC value cannot be published on the fiveg_gnb_identity relation")
         (add_call (LoggerError "Invalid TAC value in config: it cannot be converted to integer.")
            (add_call (RelationsGet GNB_IDENTITY_RELATION_NAME) st))
   end).
Proof.
  intros Ht Hx Hf.
  unfold _update_fiveg_gnb_identity_relation_data, relations_get, invoke, logger_info,
    logger_error, _get_tac_as_int, Py.int_base16.
  rewrite Ht, Hx. unfold lift, try_except_ValueError. unfold_monad. fields. rewrite Hf.
  destruct (relations self !! GNB_IDENTITY_RELATION_NAME) as [[| r rs] |]; reflexivity.
Qed.

(** C6: when the configured tracking-area code is a string that is not a
    base-16 integer, the identity step returns without raising and without
    a publish call, and with identity relations present it logs the two
    errors; reconciliation publishes nothing either, and a pass that
    reaches the identity step returns and ends Active. *)
Theorem nonhex_tac_is_skipped self event st s :
  let publish := _update_fiveg_gnb_identity_relation_data self in
  let configure := _configure self event in
  config self !! "tac" = Some (Py.VStr s) ->
  Py.int_of_string 16 s = None ->
  fault self (RelationsGet GNB_IDENTITY_RELATION_NAME) = false ->
  (result publish st = Return tt
   ∧ count_calls is_publish (new_calls publish st) = 0%nat
   ∧ (∀ r rs, relations self !! GNB_IDENTITY_RELATION_NAME = Some (r :: rs) ->
        new_calls publish st =
        [RelationsGet GNB_IDENTITY_RELATION_NAME;
         LoggerError "Invalid TAC value in config: it cannot be converted to integer.";
         LoggerError "TAC value cannot be published on the fiveg_gnb_identity relation"]))
  ∧ count_calls is_publish (new_calls configure st) = 0%nat
  ∧ (In (RelationsGet GNB_IDENTITY_RELATION_NAME) (new_calls configure st) ->
     result configure st = Return tt ∧ unit_status (exec configure st) = ActiveStatus).
Proof.
  intros publish configure Ht Hx Hf. subst publish configure.
  pose proof (identity_nonhex_run self) as Hid.
  specialize (fun st => Hid st s Ht Hx Hf).
  split; [| split].
  - unfold new_calls, result, exec. rewrite Hid. fields. split_and!.
    + reflexivity.
    + destruct (relations self !! _) as [[| r rs] |]; fields;
        rewrite <- ?app_assoc, drop_app_length; reflexivity.
    + intros r rs ->. fields. rewrite <- ?app_assoc, drop_app_length. reflexivity.
  - unfold new_calls, exec.
    destruct (_configure self event st) as [r st'] eqn:H. cbn [fst snd].
    run_in H.
    repeat (try rewrite Hid in H; step_in H).
    all: try rewrite Hid in H.
    all: injection H as <- <-; fields.
    all: try (destruct (relations self !! GNB_IDENTITY_RELATION_NAME) as [[| ? ?] |]; fields).
    all: rewrite <- ?app_assoc, ?drop_app_length, ?drop_all; reflexivity.
  - unfold new_calls, result, exec.
    destruct (_configure self event st) as [r st'] eqn:H. cbn [fst snd].
    run_in H.
    repeat (try rewrite Hid in H; step_in H).
    all: try rewrite Hid in H.
    all: injection H as <- <-; fields.
    all: try (split; reflexivity).
    all: rewrite <- ?app_assoc, ?drop_app_length, ?drop_all; cbn [app In].
    all: intros Hin; exfalso; repeat (destruct Hin as [Hin | Hin]; [discriminate Hin |]);
      exact Hin.
Qed.

Lemma nonhex_tac_is_skipped_witness :
  result (_configure (ready_charm (<["tac"%string := Py.VStr "zz"]> sample_config) true)
            ConfigChangedEvent) (fresh_state false) = Return tt
  ∧ unit_status
      (exec (_configure (ready_charm (<["tac"%string := Py.VStr "zz"]> sample_config) true)
               ConfigChangedEvent) (fresh_state false)) = ActiveStatus.
Proof.
  apply (nonhex_tac_is_skipped
           (ready_charm (<["tac"%string := Py.VStr "zz"]> sample_config) true)
           ConfigChangedEvent (fresh_state false) "zz").
  - vm_compute. reflexivity.
  - vm_compute. reflexivity.
  - reflexivity.
  - vm_compute. repeat (first [left; reflexivity | right]).
Defined.

(** ** Reconciling twice *)

Lemma state_blind_ret {A} (a : A) : state_blind (mret a).
Proof. now intros s s'. Qed.

Lemma state_blind_raise {A} e : state_blind (@raise A e).
Proof. now intros s s'. Qed.

Lemma state_blind_lift {A} (r : Py.exn + A) : state_blind (lift r).
Proof. intros s s'. now destruct r. Qed.

Lemma state_blind_modify f : state_blind (modify f).
Proof. now intros s s'. Qed.

Lemma state_blind_bind {A B} (m : M A) (f : A -> M B) :
  state_blind m -> (∀ a, state_blind (f a)) -> state_blind (m ≫= f).
Proof.
  intros Hm Hf s s'. unfold result. rewrite !run_bind.
  specialize (Hm s s'). unfold result in Hm.
  destruct (m s) as [[a | e] s1], (m s') as [[a' | e'] s1']; simpl in Hm;
    try discriminate; try (injection Hm as <-).
  - apply Hf.
  - reflexivity.
Qed.

Lemma state_blind_try {A} (m h : M A) :
  state_blind m -> state_blind h -> state_blind (try_except_ValueError m h).
Proof.
  intros Hm Hh s s'. unfold result, try_except_ValueError.
  specialize (Hm s s'). unfold result in Hm.
  destruct (m s) as [[a | e] s1], (m s') as [[a' | e'] s1']; simpl in Hm;
    try discriminate; try (injection Hm as <-); try reflexivity.
  destruct e as [[] | | |]; try reflexivity. apply Hh.
Qed.

Lemma state_blind_for_each {A} (l : list A) (body : A -> M unit) :
  (∀ x, state_blind (body x)) -> state_blind (for_each l body).
Proof.
  intros Hb. induction l as [| x r IH]; simpl.
  - apply state_blind_ret.
  - apply state_blind_bind; [apply Hb | intros _; exact IH].
Qed.

Lemma identity_state_blind self :
  state_blind (_update_fiveg_gnb_identity_relation_data self).
Proof.
  autounfold with charm collab.
  repeat lazymatch goal with
    | |- state_blind (mret _) => apply state_blind_ret
    | |- state_blind (raise _) => apply state_blind_raise
    | |- state_blind (lift _) => apply state_blind_lift
    | |- state_blind (modify _) => apply state_blind_modify
    | |- state_blind (try_except_ValueError _ _) => apply state_blind_try
    | |- state_blind (for_each _ _) => apply state_blind_for_each; intro
    | |- state_blind (mbind _ _) => apply state_blind_bind; [| intro]
    | |- state_blind (match ?x with _ => _ end) => destruct x
    end.
Qed.

Lemma config_file_path_ne_base : config_file_path ≠ BASE_CONFIG_PATH.
Proof. discriminate. Qed.

Lemma bool_decide_is_Some_Some {A} (x : A) : bool_decide (is_Some (Some x)) = true.
Proof. apply bool_decide_eq_true_2. eauto. Qed.

Lemma quiet_no_workload l :
  Forall (fun c => is_workload_command c = false ∧ is_gate_query c = false) l ->
  Forall (fun c => is_workload_command c = false) l.
Proof. intros F. eapply Forall_impl; [exact F | cbv beta; tauto]. Qed.

Lemma no_workload_no_push l :
  Forall (fun c => is_workload_command c = false) l -> count_calls is_push l = 0%nat.
Proof.
  intros F. apply count_calls_none. eapply Forall_impl; [exact F |].
  intros c. unfold is_workload_command. destruct (is_push c); [discriminate | reflexivity].
Qed.

Lemma drop_new (l k n : list call) : k = l ++ n -> drop (Datatypes.length l) k = n.
Proof. intros ->. apply drop_app_length. Qed.



Ltac prune :=
  try match goal with
      | Hc : _ = _ |- _ => discriminate Hc
      end;
  repeat match goal with
         | Hc : inr _ = inr _ |- _ =>
             injection Hc as Hc;
             match type of Hc with ?a = ?b => first [subst a | subst b] end
         | Hc : Some _ = Some _ |- _ =>
             injection Hc as Hc;
             match type of Hc with ?a = ?b => first [subst a | subst b] end
         | Hc : File _ = File _ |- _ =>
             injection Hc as Hc;
             match type of Hc with ?a = ?b => first [subst a | subst b] end
         end.

Ltac restep_in H :=
  repeat (first
    [ progress (rewrite ?orb_true_r, ?lookup_insert_eq, ?bool_decide_is_Some_Some,
                  ?String.eqb_refl in H;
                rewrite ?(lookup_insert_ne _ _ _ _ config_file_path_ne_base) in H)
    | match goal with
      | Heq : files ?s = _ |- _ =>
          lazymatch type of H with context [files s] => rewrite Heq in H end
      | Heq : gnb_running ?s = _ |- _ =>
          lazymatch type of H with context [gnb_running s] => rewrite Heq in H end
      | Heq : plan_services ?s = _ |- _ =>
          lazymatch type of H with context [plan_services s] => rewrite Heq in H end
      | Heq : files ?s !! ?p = _ |- _ =>
          lazymatch type of H with context [files s !! p] => rewrite Heq in H end
      end
    | step_in H; prune ];
    fields_in H).


(** A valid configuration: sst converts and no required setting is
    invalid. *)
Lemma valid_config_filter self st :
  result (_get_invalid_configs self) st = Return [] ->
  ∃ z, Py.int (config self !! "sst") = inr z
       ∧ [] = List.filter
                (fun key => if String.eqb key "sst" then z =? 0
                            else negb (Py.truthy (config self !! key)))
                required_settings.
Proof.
  intros Hv. destruct (get_invalid_configs_sst self st [] Hv) as [z Hz].
  exists z. split; [exact Hz |].
  rewrite (get_invalid_configs_value self st z Hz) in Hv. congruence.
Qed.

(** With every gate open a pass that returns ends Active. *)
Lemma returned_pass_with_open_gates_is_active self event st :
  result (_configure self event) st = Return tt ->
  gates_open self st ->
  unit_status (exec (_configure self event) st) = ActiveStatus.
Proof.
  intros Hr (Hv & (r & rs & Hrel) & Hc & Hs & Hm & Hh & Hp).
  destruct (valid_config_filter self st Hv) as (z & Hz & Hi). clear Hv.
  apply (bool_decide_eq_true_2 _) in Hs.
  unfold result, exec in *.
  destruct (_configure self event st) as [o st1] eqn:H. cbn [fst snd] in *. subst o.
  run_in H.
  repeat (step_in H; prune).
  all: injection H as <-; reflexivity.
Qed.
(** A second pass after a pass that returned, on the same inputs: the
    facts that hold whatever status the first pass ended with. *)
Lemma second_pass_after_returned_pass self event event' st :
  let first := _configure self event in
  let second := _configure self event' in
  let st1 := exec first st in
  result first st = Return tt ->
  Forall (fun c => is_workload_command c = false) (new_calls second st1)
  ∧ files (exec second st1) = files st1
  ∧ (count_calls is_push (new_calls first st ++ new_calls second st1) <= 1)%nat
  ∧ (unit_status st1 = ActiveStatus ->
     In (ContainerPull config_file_path) (new_calls second st1))
  ∧ (unit_status st1 = ActiveStatus -> files st !! config_file_path = None ->
     ∀ params, render_params self = Some params ->
       count_calls is_push (new_calls first st) = 1%nat
       ∧ In (ContainerPush (render_template self params) config_file_path)
            (new_calls first st)
       ∧ files st1 !! config_file_path = Some (File (render_template self params)))
  ∧ (fault self (ContainerPull config_file_path) = false ->
     result second st1 = Return tt
     ∧ unit_status (exec second st1) = unit_status st1).
Proof.
  intros first second st1 Hr. subst first second st1.
  unfold new_calls, result, exec in *.
  destruct (_configure self event st) as [r st1] eqn:H1. cbn [fst snd] in *. subst r.
  destruct (_configure self event' st1) as [r2 st2] eqn:H2. cbn [fst snd].
  run_in H1.
  repeat step_in H1.
  all: injection H1 as H1.
  all: pose proof (f_equal unit_status H1) as Eu; pose proof (f_equal gnb_running H1) as Eg;
    pose proof (f_equal files H1) as Ef; pose proof (f_equal plan_services H1) as Ep;
    pose proof (f_equal active_services H1) as Ea; pose proof (f_equal calls H1) as Ec;
    clear H1; symmetry in Eu, Eg, Ef, Ep, Ea, Ec;
    fields_in Eu; fields_in Eg; fields_in Ef; fields_in Ep; fields_in Ea; fields_in Ec.
  all: run_in H2.
  all: try (destruct Isame as (Iu & Ig & If & Ip & Ia & Ik); fields_in Iu; fields_in Ig;
            fields_in If; fields_in Ip; fields_in Ia; fields_in Ik;
            destruct Icalls as (post1 & Ic1 & IF1); fields_in Ic1;
            apply quiet_no_workload in IF1;
            rewrite If in Ef; rewrite Ig in Eg; rewrite Ip in Ep; rewrite Ia in Ea;
            clear If Ig Ip Ia).
  all: restep_in H2.
  all: try (exfalso;
            match goal with
            | Hu : _update_fiveg_gnb_identity_relation_data ?c ?S1 = (Return tt, _),
              Hv : _update_fiveg_gnb_identity_relation_data ?c ?S2 = (Raised _, _) |- _ =>
                pose proof (identity_state_blind c S1 S2) as Hb;
                unfold result in Hb; rewrite Hu, Hv in Hb; discriminate Hb
            end).
  all: try (destruct Isame as (Iu2 & Ig2 & If2 & Ip2 & Ia2 & Ik2);
            destruct Icalls as (post2 & Ic2 & IF2);
            cbn [files calls add_call set_unit_status] in If2, Ic2;
            apply quiet_no_workload in IF2).
  all: injection H2 as <- <-.
  all: cbn [files calls unit_status add_call set_unit_status fst snd].
  all: rewrite ?If2, ?Ic2.
  all: erewrite (drop_new (calls st1))
    by (rewrite <- ?app_assoc; first [reflexivity | symmetry; apply app_nil_r]).
  all: erewrite (drop_new (calls st))
    by (rewrite Ec, ?Ic1; rewrite <- ?app_assoc;
        first [reflexivity | symmetry; apply app_nil_r]).
  all: cbn [app].
  all: split_and!.
  all: lazymatch goal with
       | |- Forall _ _ =>
           repeat (constructor; [reflexivity |]); first [constructor | assumption]
       | |- files _ = files _ => rewrite ?Ef; reflexivity
       | |- (count_calls _ _ <= 1)%nat =>
           cbn [count_calls is_push]; rewrite ?count_calls_app; cbn [count_calls is_push];
           rewrite ?(no_workload_no_push post1), ?(no_workload_no_push post2) by assumption;
           lia
       | |- _ -> In _ _ =>
           intros Hx;
           first [ rewrite Eu in Hx; discriminate Hx
                 | cbn [In]; solve [repeat (first [left; reflexivity | right])] ]
       | |- _ -> _ -> ∀ _ : gnb_params, _ =>
           intros Hx Hn params Hp;
           first [ rewrite Eu in Hx; discriminate Hx
                 | discriminate Hn
                 | match goal with
                   | Ha : Py.split_slash_head _ = inr _, Hz : Py.int _ = inr _ |- _ =>
                       pose proof (render_params_eq _ _ _ _ Ha Hz Hp) as ->
                   end;
                   split_and!;
                   [ cbn [count_calls is_push]; rewrite ?count_calls_app;
                     cbn [count_calls is_push];
                     rewrite ?(no_workload_no_push post1) by assumption; lia
                   | cbn [In]; solve [repeat (first [left; reflexivity | right])]
                   | rewrite Ef; apply lookup_insert_eq ] ]
       | |- _ -> _ ∧ _ =>
           intros Hx; split;
           [ first [reflexivity | congruence]
           | first [ reflexivity | symmetry; exact Eu ] ]
       end.
Qed.


(** A file that is absent differs from any content: the stored file is
    not read. *)
Lemma absent_file_differs self content st :
  files st !! config_file_path = None ->
  fault self (ContainerExists config_file_path) = false ->
  result (_config_file_content_matches self content) st = Return false
  ∧ new_calls (_config_file_content_matches self content) st
    = [ContainerExists config_file_path].
Proof.
  intros Hn Hf. unfold new_calls, result, exec.
  destruct (_config_file_content_matches self content st) as [o st1] eqn:H.
  run_in H. rewrite Hf in H. cbn [files add_call] in H. rewrite Hn in H.
  cbn in H. injection H as <- <-. split; [reflexivity |].
  cbn. apply drop_app_length.
Qed.

(** C3: reconciliation run twice on unchanged inputs writes the file
    /etc/gnb.yaml at most once.  After a first pass that returns, the
    second pass makes no push, add_layer, start, stop or restart call and
    leaves the files as they are, and the two passes together push at most
    once.  When every gate is open, the first pass ends Active and the
    second pass reads the stored file (a pull of /etc/gnb.yaml) and pushes
    nothing.  An absent file is treated as differing: the comparison
    answers false without reading, and a first pass that ends Active on an
    absent file pushes the rendered content exactly once, after which the
    file holds that content.  The second pass returns with the same status
    when the pull does not fail. *)
Theorem reconcile_twice_writes_once self event event' st :
  let first := _configure self event in
  let second := _configure self event' in
  let st1 := exec first st in
  result first st = Return tt ->
  Forall (fun c => is_workload_command c = false) (new_calls second st1)
  ∧ files (exec second st1) = files st1
  ∧ (count_calls is_push (new_calls first st ++ new_calls second st1) <= 1)%nat
  ∧ (gates_open self st ->
     unit_status st1 = ActiveStatus
     ∧ In (ContainerPull config_file_path) (new_calls second st1)
     ∧ count_calls is_push (new_calls second st1) = 0%nat
     ∧ (files st !! config_file_path = None ->
        ∀ params, render_params self = Some params ->
          count_calls is_push (new_calls first st) = 1%nat
          ∧ In (ContainerPush (render_template self params) config_file_path)
               (new_calls first st)
          ∧ files st1 !! config_file_path = Some (File (render_template self params))))
  ∧ (unit_status st1 = ActiveStatus ->
     In (ContainerPull config_file_path) (new_calls second st1)
     ∧ (files st !! config_file_path = None ->
        ∀ params, render_params self = Some params ->
          count_calls is_push (new_calls first st) = 1%nat
          ∧ In (ContainerPush (render_template self params) config_file_path)
               (new_calls first st)
          ∧ files st1 !! config_file_path = Some (File (render_template self params))))
  ∧ (files st !! config_file_path = None ->
     fault self (ContainerExists config_file_path) = false ->
     ∀ content,
       result (_config_file_content_matches self content) st = Return false)
  ∧ (fault self (ContainerPull config_file_path) = false ->
     result second st1 = Return tt
     ∧ unit_status (exec second st1) = unit_status st1).
Proof.
  intros first second st1 Hr.
  destruct (second_pass_after_returned_pass self event event' st Hr)
    as (Hq & Hf & Hc & Hpull & Hw & Hs).
  fold first second st1 in Hq, Hf, Hc, Hpull, Hw, Hs.
  split_and!; try assumption.
  - intros Hg.
    pose proof (returned_pass_with_open_gates_is_active self event st Hr Hg) as Ha.
    fold first st1 in Ha.
    split_and!; auto using no_workload_no_push.
  - intros Ha. split; auto.
  - intros Hn He content. apply (absent_file_differs self content st Hn He).
Qed.

Lemma reconcile_twice_writes_once_witness :
  let self := ready_charm sample_config true in
  let st := fresh_state false in
  let first := _configure self ConfigChangedEvent in
  let second := _configure self UeransimPebbleReadyEvent in
  let st1 := exec first st in
  files st !! config_file_path = None
  ∧ result (_config_file_content_matches self (sample_template sample_params)) st
    = Return false
  ∧ unit_status st1 = ActiveStatus
  ∧ count_calls is_push (new_calls first st) = 1%nat
  ∧ In (ContainerPush (sample_template sample_params) config_file_path)
       (new_calls first st)
  ∧ files st1 !! config_file_path = Some (File (sample_template sample_params))
  ∧ In (ContainerPull config_file_path) (new_calls second st1)
  ∧ count_calls is_push (new_calls second st1) = 0%nat
  ∧ Forall (fun c => is_workload_command c = false) (new_calls second st1)
  ∧ files (exec second st1) = files st1
  ∧ result second st1 = Return tt
  ∧ unit_status (exec second st1) = ActiveStatus.
Proof.
  intros self st first second st1.
  destruct (reconcile_twice_writes_once self ConfigChangedEvent UeransimPebbleReadyEvent st)
    as (Hq & Hf & _ & Hg & _ & Hm & Hs); [vm_compute; reflexivity |].
  destruct Hg as (Ha & Hp & Hc & Hw).
  { unfold gates_open. split_and!; try (vm_compute; reflexivity).
    - exists 0, []. reflexivity.
    - vm_compute. eauto. }
  destruct (Hw eq_refl sample_params) as (Hw1 & Hw2 & Hw3); [vm_compute; reflexivity |].
  destruct Hs as (Hs1 & Hs2); [reflexivity |].
  fold first st1 in Ha, Hw1, Hw2, Hw3. fold second st1 in Hq, Hf, Hp, Hc, Hs1, Hs2.
  split_and!; try assumption.
  - reflexivity.
  - apply Hm; reflexivity.
Defined.

(** ** The gates of a pass *)





(** An exception of the publication loop is that of the refused call. *)
Lemma publish_loop_raises self name tac rels st e st' :
  for_each rels (fun r => publish_gnb_identity_information self r name tac) st
  = (Raised e, st') ->
  refused_call self e st'.
Proof.
  revert st. induction rels as [| r rs IH]; intros st; [discriminate |].
  cbn [for_each]. rewrite run_bind.
  unfold publish_gnb_identity_information at 1, invoke. unfold_monad. fields.
  destruct (fault self (PublishGnbIdentityInformation r name tac)) eqn:Hf.
  - intros [= <- <-]. fields. eexists. split_and!; [reflexivity | exact Hf | apply last_snoc].
  - apply IH.
Qed.

(** The identity step raises for a refused call or for a tracking-area
    code that is not a string. *)
Lemma identity_raises self st e st' :
  _update_fiveg_gnb_identity_relation_data self st = (Raised e, st') ->
  e = Builtin Py.TypeError ∨ refused_call self e st'.
Proof.
  unfold _update_fiveg_gnb_identity_relation_data.
  rewrite run_bind. unfold relations_get, invoke at 1. unfold_monad. fields.
  destruct (fault self (RelationsGet GNB_IDENTITY_RELATION_NAME)) eqn:Hf.
  - intros [= <- <-]. right. eexists. split_and!; [reflexivity | exact Hf | apply last_snoc].
  - destruct (relations self !! GNB_IDENTITY_RELATION_NAME) as [[| r rs] |];
      try (unfold logger_info, modify; discriminate).
    unfold _get_tac_as_int, Py.int_base16, lift, try_except_ValueError, logger_error.
    unfold_monad. fields.
    destruct (config self !! "tac") as [[s | z | b] |]; fields;
      try (intros [= <- <-]; left; reflexivity).
    destruct (Py.int_of_string 16 s) as [z |]; fields; [| discriminate].
    destruct z as [| p | p]; fields; try discriminate.
    + intros H. right.
      apply (publish_loop_raises self (_gnb_name self) (Z.pos p) (r :: rs) _ e _ H).
    + intros H. right.
      apply (publish_loop_raises self (_gnb_name self) (Z.neg p) (r :: rs) _ e _ H).
Qed.



(** ** Publishing the identity *)

(** The publication loop when no call is refused. *)
Lemma publish_loop_run self tac rels st :
  (∀ r, In r rels ->
     fault self (PublishGnbIdentityInformation r (_gnb_name self) tac) = false) ->
  for_each rels (fun r => publish_gnb_identity_information self r (_gnb_name self) tac) st
  = (Return tt, published self tac rels st).
Proof.
  revert st. induction rels as [| r rs IH]; intros st Hf; [reflexivity |].
  cbn [for_each]. rewrite run_bind.
  unfold publish_gnb_identity_information at 1, invoke. unfold_monad. fields.
  rewrite (Hf r) by (now left). apply IH. intros r' Hr. apply Hf. now right.
Qed.

Lemma published_calls self tac rels st :
  calls (published self tac rels st)
  = calls st ++ map (fun r => PublishGnbIdentityInformation r (_gnb_name self) tac) rels.
Proof.
  revert st. induction rels as [| r rs IH]; intros st; cbn.
  - now rewrite app_nil_r.
  - unfold published in IH. rewrite IH. cbn. now rewrite <- app_assoc.
Qed.

Lemma published_same_but_calls self tac rels st :
  same_but_calls st (published self tac rels st).
Proof.
  revert st. induction rels as [| r rs IH]; intros st; cbn.
  - reflexivity.
  - etransitivity; [| apply IH]. repeat split.
Qed.





(** ** The stored file *)





(** ** The workload layer *)

(** The plan holds the layer's services and nothing else exactly when no
    service of another name is in it. *)
Lemma layer_union_plan (plan : gmap string PebbleService) :
  services _ueransim_pebble_layer ∪ plan = services _ueransim_pebble_layer
  ↔ ∀ name, name ≠ _ueransim_service_name -> plan !! name = None.
Proof.
  cbn [services _ueransim_pebble_layer]. split.
  - intros He name Hn.
    assert (Hl : (({[_ueransim_service_name := {| override := "replace"; startup := "enabled";
                     command := "nr-gnb -c " +:+ config_file_path |}]} : gmap string PebbleService)
                  ∪ plan) !! name = None).
    { rewrite He. now apply lookup_singleton_ne. }
    apply lookup_union_None in Hl. tauto.
  - intros Hp. apply map_eq. intros name.
    destruct (decide (name = _ueransim_service_name)) as [-> | Hn].
    + rewrite lookup_union_l'; [reflexivity |]. rewrite lookup_singleton_eq. eauto.
    + rewrite lookup_union_r by (now apply lookup_singleton_ne).
      rewrite Hp by exact Hn. symmetry. now apply lookup_singleton_ne.
Qed.



(** ** The external service, installed and removed *)



(** ** The radio and the supervisor *)



(** ** The network attachment *)


